(** * Stock analysis backend: the session-scoped turn orchestrator

    Shallow embedding of [backend/server.py]: the chat and candlestick
    analysis handlers, the keyword-based signal extraction, and the history
    reads, over an explicit model of the process state (provider handles,
    the two store collections, the log); and the helpers around them: the
    two document conversions, the base64 image payload and the list of
    allowed origins.

    Python [str] is modelled as [string], a sequence of 8-bit characters;
    [Str.lower] and [Str.capitalize] are [str.lower] and [str.capitalize]
    on ASCII text: they act on the ASCII letters and leave every other
    character as it is. The detection loop is also given over an arbitrary
    lower-casing of the response text, which covers text beyond ASCII. *)

From Stdlib Require Import ZArith List Strings.Byte Ascii String Sorting.Sorted Permutation DecimalString.
From stdpp Require Import gmap strings list fin_maps sorting.

Local Open Scope string_scope.
Local Open Scope Z_scope.
Local Open Scope list_scope.

(** ** Python string operations *)

Module Str.

(** One character of [str.lower()]: [A]..[Z] move to [a]..[z]. *)
Definition lower_char (c : ascii) : ascii :=
  let n := N_of_ascii c in
  if ((65 <=? n) && (n <=? 90))%N then ascii_of_N (n + 32) else c.

(** One character of [str.upper()]: [a]..[z] move to [A]..[Z]. *)
Definition upper_char (c : ascii) : ascii :=
  let n := N_of_ascii c in
  if ((97 <=? n) && (n <=? 122))%N then ascii_of_N (n - 32) else c.

(** [s.lower()] *)
Fixpoint lower (s : string) : string :=
  match s with
  | EmptyString => EmptyString
  | String c t => String (lower_char c) (lower t)
  end.

(** [s.capitalize()]: first character upper-cased, the rest lower-cased. *)
Definition capitalize (s : string) : string :=
  match s with
  | EmptyString => EmptyString
  | String c t => String (upper_char c) (lower t)
  end.

(** [s.startswith(p)] *)
Fixpoint startswith (p s : string) : bool :=
  match p with
  | EmptyString => true
  | String a p' =>
      match s with
      | EmptyString => false
      | String b s' => if Ascii.eqb a b then startswith p' s' else false
      end
  end.

(** [needle in hay]: the substring test. *)
Fixpoint contains (needle hay : string) : bool :=
  startswith needle hay ||
  match hay with
  | EmptyString => false
  | String _ t => contains needle t
  end.

(** What "appears as a substring" means. *)
Definition is_substring (needle hay : string) : Prop :=
  exists pre post, hay = pre +:+ needle +:+ post.

(** [str(n)] for an integer. *)
Definition of_Z (n : Z) : string := NilZero.string_of_int (Z.to_int n).

End Str.

(** ** Signal extraction (the body of [analyze_candlestick_chart],
       between the provider call and the store write) *)

Definition pattern_keywords : list string :=
  ["doji"; "hammer"; "shooting star"; "engulfing"; "pin bar"; "inside bar"].

(** The [for pattern in pattern_keywords] loop, appending to the
    accumulator [patterns_detected]. *)
Fixpoint detect_loop (keywords : list string) (analysis : string)
    (patterns_detected : list string) : list string :=
  match keywords with
  | [] => patterns_detected
  | pattern :: rest =>
      if Str.contains (Str.lower pattern) (Str.lower analysis)
      then detect_loop rest analysis (patterns_detected ++ [Str.capitalize pattern])
      else detect_loop rest analysis patterns_detected
  end.

Definition detect_patterns (analysis : string) : list string :=
  detect_loop pattern_keywords analysis [].

Section Extraction.
(** [str.lower()], whatever it does to the characters of the text. *)
Variable lower : string -> string.

(** The same loop over any lower-casing: [pattern.lower() in
    analysis.lower()], then [patterns_detected.append(pattern.capitalize())]. *)
Fixpoint detect_loop_with (keywords : list string) (analysis : string)
    (patterns_detected : list string) : list string :=
  match keywords with
  | [] => patterns_detected
  | pattern :: rest =>
      if Str.contains (lower pattern) (lower analysis)
      then detect_loop_with rest analysis
             (patterns_detected ++ [Str.capitalize pattern])
      else detect_loop_with rest analysis patterns_detected
  end.

Definition detect_patterns_with (analysis : string) : list string :=
  detect_loop_with pattern_keywords analysis [].
End Extraction.

(** [str.lower()] on UTF-8 text, for the characters whose lower case holds
    an ASCII letter: [A]..[Z], U+0130 (bytes 196 176), which becomes [i]
    followed by U+0307 (bytes 204 135), and U+212A (bytes 226 132 170),
    which becomes [k]. The lower case of any other character beyond ASCII
    is again beyond ASCII; its bytes are left as they are. *)
Fixpoint lower_utf8 (s : string) : string :=
  match s with
  | EmptyString => EmptyString
  | String c t =>
      match t with
      | String d t' =>
          if Ascii.eqb c "196" && Ascii.eqb d "176"
          then String "i" (String "204" (String "135" (lower_utf8 t')))
          else
            match t' with
            | String e t'' =>
                if Ascii.eqb c "226" && Ascii.eqb d "132" && Ascii.eqb e "170"
                then String "k" (lower_utf8 t'')
                else String (Str.lower_char c) (lower_utf8 t)
            | EmptyString => String (Str.lower_char c) (lower_utf8 t)
            end
      | EmptyString => String (Str.lower_char c) EmptyString
      end
  end.

(** The chain of [if] statements filling the [recommendations] dict. *)
Definition extract_recommendations (analysis : string) : gmap string string :=
  let recommendations : gmap string string := ∅ in
  let recommendations :=
    if Str.contains "stop loss" (Str.lower analysis)
    then <["risk_management" := "Stop loss recommended"]> recommendations
    else recommendations in
  let recommendations :=
    if Str.contains "profit" (Str.lower analysis)
    then <["profit_booking" := "Profit targets identified"]> recommendations
    else recommendations in
  let recommendations :=
    if Str.contains "buy" (Str.lower analysis)
    then <["action" := "Potential buy signal"]> recommendations
    else if Str.contains "sell" (Str.lower analysis)
    then <["action" := "Potential sell signal"]> recommendations
    else recommendations in
  recommendations.

(** ** [base64.b64encode(...).decode('utf-8')] *)

Definition b64_char (i : N) : ascii :=
  if (i <? 26)%N then ascii_of_N (65 + i)
  else if (i <? 52)%N then ascii_of_N (97 + (i - 26))
  else if (i <? 62)%N then ascii_of_N (48 + (i - 52))
  else if (i =? 62)%N then "+"%char else "/"%char.

Fixpoint b64encode (bs : list byte) : string :=
  match bs with
  | [] => ""
  | [a] =>
      let x := Byte.to_N a in
      String (b64_char (x / 4))
        (String (b64_char ((x mod 4) * 16)) "==")
  | [a; b] =>
      let x := Byte.to_N a in
      let y := Byte.to_N b in
      String (b64_char (x / 4))
        (String (b64_char ((x mod 4) * 16 + y / 16))
           (String (b64_char ((y mod 16) * 4)) "="))
  | a :: b :: c :: rest =>
      let x := Byte.to_N a in
      let y := Byte.to_N b in
      let z := Byte.to_N c in
      String (b64_char (x / 4))
        (String (b64_char ((x mod 4) * 16 + y / 16))
           (String (b64_char ((y mod 16) * 4 + z / 64))
              (String (b64_char (z mod 64)) (b64encode rest))))
  end.

(** ** Exceptions, outcomes and HTTP responses *)

Inductive exn : Type :=
| HTTPException (status_code : Z) (detail : string)
| Error (message : string).

(** [str(e)]: the framework's HTTPException prints as "status: detail";
    any other exception is carried with its message. *)
Definition str (e : exn) : string :=
  match e with
  | HTTPException status_code detail => Str.of_Z status_code +:+ ": " +:+ detail
  | Error message => message
  end.

Inductive outcome (A : Type) : Type :=
| Returns (a : A)
| Raises (e : exn).
Arguments Returns {A} a.
Arguments Raises {A} e.

(** What the client sees: the handler's return value with status 200, or
    the status and detail of the HTTPException that left the handler. *)
Inductive http_response (A : Type) : Type :=
| Http200 (body : A)
| HttpError (status_code : Z) (detail : string).
Arguments Http200 {A} body.
Arguments HttpError {A} status_code detail.

Definition respond {A} (o : outcome A) : http_response A :=
  match o with
  | Returns a => Http200 a
  | Raises (HTTPException status_code detail) => HttpError status_code detail
  | Raises (Error _) => HttpError 500 "Internal Server Error"
  end.

(** ** Data model *)

Module LlmChat.
Record t : Type := make {
  api_key : string;
  session_id : string;
  system_message : string;
  model : string * string
}.
Definition with_model (provider name : string) (c : t) : t :=
  {| api_key := api_key c; session_id := session_id c;
     system_message := system_message c; model := (provider, name) |}.
End LlmChat.

Module ImageContent.
Record t : Type := make { image_base64 : string }.
End ImageContent.

Module UserMessage.
Record t : Type := make {
  text : string;
  file_contents : list ImageContent.t
}.
End UserMessage.

Module ChatRequest.
Record t : Type := make {
  message : string;
  session_id : string
}.
End ChatRequest.

(** [timestamp] holds the ISO-8601 text that [prepare_for_mongo] writes
    in place of the datetime, which is the value the store keeps and
    sorts by. *)
Module ChatMessage.
Record t : Type := make {
  id : string;
  session_id : string;
  message : string;
  response : string;
  timestamp : string
}.
End ChatMessage.

Module CandlestickAnalysis.
Record t : Type := make {
  id : string;
  session_id : string;
  filename : string;
  analysis : string;
  patterns_detected : list string;
  indicators : gmap string string;
  recommendations : gmap string string;
  timestamp : string
}.
End CandlestickAnalysis.

Module UploadFile.
Record t : Type := make {
  filename : string;
  content_type : option string;
  content : list byte
}.
End UploadFile.

(** The dicts the handlers return. *)
Module ChatResponse.
Record t : Type := make {
  response : string;
  session_id : string
}.
End ChatResponse.

Module AnalysisResponse.
Record t : Type := make {
  analysis : string;
  patterns_detected : list string;
  recommendations : gmap string string;
  session_id : string;
  filename : string
}.
End AnalysisResponse.

Module ChatHistory.
Record t : Type := make {
  chats : list ChatMessage.t;
  session_id : string
}.
End ChatHistory.

Module AnalysisHistory.
Record t : Type := make {
  analyses : list CandlestickAnalysis.t;
  session_id : string
}.
End AnalysisHistory.

(** ** The store: two collections and the cursor operations on them *)

(** A collection holds its documents in insertion order. [fault] is the
    error of an unreachable store: while it is set, every operation on the
    collection raises it. *)
Record collection (A : Type) : Type := mk_collection {
  docs : list A;
  fault : option string
}.
Arguments mk_collection {A} docs fault.
Arguments docs {A} c.
Arguments fault {A} c.

Section Cursor.
Context {A : Type}.
Variable session_of : A -> string.
Variable timestamp_of : A -> string.

(** [find({"session_id": session_id})] *)
Definition find (session_id : string) (l : list A) : list A :=
  List.filter (fun d => String.eqb (session_of d) session_id) l.

(** The order of [sort("timestamp", direction)] on the stored text:
    [1] ascending, [-1] descending. *)
Definition before (direction : Z) (a b : A) : bool :=
  if (0 <=? direction)%Z
  then String.leb (timestamp_of a) (timestamp_of b)
  else String.leb (timestamp_of b) (timestamp_of a).

Fixpoint place (direction : Z) (d : A) (l : list A) : list A :=
  match l with
  | [] => [d]
  | x :: r =>
      if before direction d x then d :: x :: r
      else x :: place direction d r
  end.

(** [sort("timestamp", direction)] *)
Definition sort (direction : Z) (l : list A) : list A :=
  fold_right (place direction) [] l.

(** [to_list(n)] *)
Definition to_list (n : nat) (l : list A) : list A := firstn n l.

(** [a] may stand before [b] in a result sorted in [direction]. *)
Definition in_order (direction : Z) (a b : A) : Prop :=
  before direction a b = true.
End Cursor.

(** ** Process state and the handler monad *)

(** What the handlers read from their surroundings: the configured
    credential, the provider's answer to a message sent through a given
    chat object, and the successive values of [uuid.uuid4()] and
    [datetime.now(timezone.utc)]. *)
Record Env : Type := {
  EMERGENT_LLM_KEY : option string;
  provider : LlmChat.t -> UserMessage.t -> outcome string;
  uuid4 : nat -> string;
  utcnow : nat -> string
}.

(** What the handlers change: the [LlmChat] objects constructed so far (a
    reference is an index in this list), the two collections, the log and
    the number of identifiers and clock readings drawn. *)
Record World : Type := {
  chat_objects : list LlmChat.t;
  chat_messages : collection ChatMessage.t;
  candlestick_analyses : collection CandlestickAnalysis.t;
  log : list string;
  draws : nat
}.

Definition M (A : Type) : Type := World -> outcome A * World.

Definition ret {A} (a : A) : M A := fun w => (Returns a, w).

Definition bind {A B} (m : M A) (k : A -> M B) : M B :=
  fun w =>
    match m w with
    | (Returns a, w') => k a w'
    | (Raises e, w') => (Raises e, w')
    end.

Definition raise {A} (e : exn) : M A := fun w => (Raises e, w).

(** [try: body except Exception as e: handler] *)
Definition try_except {A} (body : M A) (handler : exn -> M A) : M A :=
  fun w =>
    match body w with
    | (Returns a, w') => (Returns a, w')
    | (Raises e, w') => handler e w'
    end.

Notation "'let*' x := m 'in' k" := (bind m (fun x => k))
  (at level 10, x name, m at level 100, k at level 200).
Notation "m >> k" := (bind m (fun _ => k))
  (at level 80, right associativity).

Definition logging_error (msg : string) : M unit :=
  fun w =>
    (Returns tt,
     {| chat_objects := chat_objects w;
        chat_messages := chat_messages w;
        candlestick_analyses := candlestick_analyses w;
        log := log w ++ [msg];
        draws := draws w |}).

(** The [LlmChat(...)] constructor: a new object, referred to by its index. *)
Definition new_LlmChat (c : LlmChat.t) : M nat :=
  fun w =>
    (Returns (length (chat_objects w)),
     {| chat_objects := chat_objects w ++ [c];
        chat_messages := chat_messages w;
        candlestick_analyses := candlestick_analyses w;
        log := log w;
        draws := draws w |}).

Definition draw {A} (source : nat -> A) : M A :=
  fun w =>
    (Returns (source (draws w)),
     {| chat_objects := chat_objects w;
        chat_messages := chat_messages w;
        candlestick_analyses := candlestick_analyses w;
        log := log w;
        draws := S (draws w) |}).

(** [db.chat_messages.insert_one(doc)] *)
Definition insert_one_chat (doc : ChatMessage.t) : M unit :=
  fun w =>
    match fault (chat_messages w) with
    | Some msg => (Raises (Error msg), w)
    | None =>
        (Returns tt,
         {| chat_objects := chat_objects w;
            chat_messages := mk_collection (docs (chat_messages w) ++ [doc]) None;
            candlestick_analyses := candlestick_analyses w;
            log := log w;
            draws := draws w |})
    end.

(** [db.candlestick_analyses.insert_one(doc)] *)
Definition insert_one_analysis (doc : CandlestickAnalysis.t) : M unit :=
  fun w =>
    match fault (candlestick_analyses w) with
    | Some msg => (Raises (Error msg), w)
    | None =>
        (Returns tt,
         {| chat_objects := chat_objects w;
            chat_messages := chat_messages w;
            candlestick_analyses :=
              mk_collection (docs (candlestick_analyses w) ++ [doc]) None;
            log := log w;
            draws := draws w |})
    end.

(** [db.chat_messages.find({"session_id": s}).sort("timestamp", d).to_list(n)] *)
Definition query_chats (session_id : string) (direction : Z) (n : nat)
    : M (list ChatMessage.t) :=
  fun w =>
    match fault (chat_messages w) with
    | Some msg => (Raises (Error msg), w)
    | None =>
        (Returns
           (to_list n
              (sort ChatMessage.timestamp direction
                 (find ChatMessage.session_id session_id (docs (chat_messages w))))),
         w)
    end.

(** [db.candlestick_analyses.find({"session_id": s}).sort("timestamp", d).to_list(n)] *)
Definition query_analyses (session_id : string) (direction : Z) (n : nat)
    : M (list CandlestickAnalysis.t) :=
  fun w =>
    match fault (candlestick_analyses w) with
    | Some msg => (Raises (Error msg), w)
    | None =>
        (Returns
           (to_list n
              (sort CandlestickAnalysis.timestamp direction
                 (find CandlestickAnalysis.session_id session_id
                    (docs (candlestick_analyses w))))),
         w)
    end.

(** ** The gateway and the request handlers *)

Definition default_system_message : string :=
"You are an expert stock market analyst and financial advisor specializing in candlestick pattern analysis and technical indicators. 

Your expertise includes:
- Candlestick pattern recognition (doji, hammer, shooting star, engulfing patterns, etc.)
- Technical indicators (RSI, MACD, Bollinger Bands, Moving Averages, etc.)
- Support and resistance levels
- Risk management (stop loss and profit booking strategies)
- Market sentiment analysis

Always provide:
1. Clear, actionable insights
2. Risk management recommendations
3. Entry/exit strategies when appropriate
4. Confidence levels for your analysis
5. Educational explanations for beginners

Keep responses professional yet accessible, and always emphasize risk management in trading.".

Definition analysis_system_message : string :=
"You are an expert technical analyst specializing in candlestick pattern analysis. Analyze the uploaded candlestick chart image and provide:

1. **Pattern Recognition**: Identify specific candlestick patterns (doji, hammer, engulfing, etc.)
2. **Technical Indicators**: Analyze visible indicators (RSI, MACD, volume, moving averages)
3. **Support/Resistance**: Identify key levels
4. **Market Sentiment**: Current trend and momentum
5. **Trading Strategy**: 
   - Entry points
   - Stop loss levels (risk management)
   - Profit targets (profit booking levels)
   - Risk-reward ratio
6. **Confidence Level**: Rate your analysis confidence (1-10)

Be specific about timeframes, price levels, and provide actionable trading advice with proper risk management.".

Definition analysis_prompt : string :=
"Please analyze this candlestick chart image and provide comprehensive trading analysis with specific patterns, indicators, and trading recommendations including stop loss and profit booking strategies.".

(** Python truthiness of an optional string: [None] and the empty string
    are false. *)
Definition truthy (s : option string) : bool :=
  match s with
  | None => false
  | Some EmptyString => false
  | Some _ => true
  end.

Section Server.
Variable env : Env.

Definition get_llm_chat (session_id : string) (system_message : option string)
    : M nat :=
  let api_key := EMERGENT_LLM_KEY env in
  if negb (truthy api_key)
  then raise (HTTPException 500 "LLM API key not configured")
  else
    let system_message :=
      if negb (truthy system_message) then default_system_message
      else default "" system_message in
    let* chat :=
      new_LlmChat
        (LlmChat.with_model "openai" "gpt-4o"
           (LlmChat.make (default "" api_key) session_id system_message ("", "")))
      (* the model set by the constructor is replaced at once by with_model *)
    in ret chat.

(** [chat.send_message(user_message)] on the object behind a reference;
    the handlers only ever pass a reference they have just obtained. *)
Definition send_message (chat : nat) (user_message : UserMessage.t) : M string :=
  fun w =>
    match chat_objects w !! chat with
    | Some c => (provider env c user_message, w)
    | None => (Raises (Error "no such chat object"), w)
    end.

Definition analyze_candlestick_image (image_base64 session_id : string) : M string :=
  try_except
    (let system_message := analysis_system_message in
     let* chat := get_llm_chat session_id (Some system_message) in
     let image_content := ImageContent.make image_base64 in
     let user_message := UserMessage.make analysis_prompt [image_content] in
     let* response := send_message chat user_message in
     ret response)
    (fun e =>
       logging_error ("Error in candlestick analysis: " +:+ str e) >>
       ret ("Error analyzing image: " +:+ str e)).

Definition chat_with_ai (request : ChatRequest.t) : M ChatResponse.t :=
  try_except
    (let* chat := get_llm_chat (ChatRequest.session_id request) None in
     let user_message := UserMessage.make (ChatRequest.message request) [] in
     let* response := send_message chat user_message in
     let* id := draw (uuid4 env) in
     let* timestamp := draw (utcnow env) in
     let chat_data :=
       ChatMessage.make id (ChatRequest.session_id request)
         (ChatRequest.message request) response timestamp in
     insert_one_chat chat_data >>
     ret (ChatResponse.make response (ChatRequest.session_id request)))
    (fun e =>
       logging_error ("Chat error: " +:+ str e) >>
       raise (HTTPException 500 ("Chat service error: " +:+ str e))).

(** [file.content_type.startswith('image/')]; without a declared
    content type the attribute access raises. *)
Definition content_type_is_image (file : UploadFile.t) : M bool :=
  match UploadFile.content_type file with
  | Some ct => ret (Str.startswith "image/" ct)
  | None => raise (Error "'NoneType' object has no attribute 'startswith'")
  end.

Definition analyze_candlestick_chart (file : UploadFile.t) (session_id : string)
    : M AnalysisResponse.t :=
  try_except
    (let* is_image := content_type_is_image file in
     (if negb is_image
      then raise (HTTPException 400 "File must be an image")
      else ret tt) >>
     let file_content := UploadFile.content file in
     let image_base64 := b64encode file_content in
     let* analysis := analyze_candlestick_image image_base64 session_id in
     let indicators : gmap string string := ∅ in
     let patterns_detected := detect_patterns analysis in
     let recommendations := extract_recommendations analysis in
     let* id := draw (uuid4 env) in
     let* timestamp := draw (utcnow env) in
     let analysis_data :=
       CandlestickAnalysis.make id session_id (UploadFile.filename file)
         analysis patterns_detected indicators recommendations timestamp in
     insert_one_analysis analysis_data >>
     ret (AnalysisResponse.make analysis patterns_detected recommendations
            session_id (UploadFile.filename file)))
    (fun e =>
       logging_error ("Candlestick analysis error: " +:+ str e) >>
       raise (HTTPException 500 ("Analysis failed: " +:+ str e))).

Definition get_chat_history (session_id : string) : M ChatHistory.t :=
  try_except
    (let* chats := query_chats session_id 1 100 in
     ret (ChatHistory.make chats session_id))
    (fun e =>
       logging_error ("Error fetching chat history: " +:+ str e) >>
       ret (ChatHistory.make [] session_id)).

Definition get_analysis_history (session_id : string) : M AnalysisHistory.t :=
  try_except
    (let* analyses := query_analyses session_id (-1) 50 in
     ret (AnalysisHistory.make analyses session_id))
    (fun e =>
       logging_error ("Error fetching analysis history: " +:+ str e) >>
       ret (AnalysisHistory.make [] session_id)).

(** *** The routes of the two turns: parameter binding and the response
    sent back. Their bodies hold text only, which the framework encodes as
    it is; the routes of the history reads follow the model of the stored
    documents, below. *)

Definition serve {A} (handler : M A) (w : World) : http_response A * World :=
  let (o, w') := handler w in (respond o, w').

(** POST /api/chat *)
Definition post_chat (request : ChatRequest.t) :=
  serve (chat_with_ai request).

(** POST /api/analyze-candlestick; [session_id: str = "default"]. *)
Definition post_analyze_candlestick (file : UploadFile.t)
    (session_id : option string) :=
  serve (analyze_candlestick_chart file (default "default" session_id)).

End Server.

(** ** Vocabulary of the statements *)

(** The chat object [get_llm_chat] constructs when the credential is set. *)
Definition configured_chat (env : Env) (session_id : string)
    (system_message : option string) : LlmChat.t :=
  LlmChat.make (default "" (EMERGENT_LLM_KEY env)) session_id
    (if truthy system_message then default "" system_message
     else default_system_message)
    ("openai", "gpt-4o").

(** The state after one more line in the log. *)
Definition logged (msg : string) (w : World) : World :=
  snd (logging_error msg w).

(** ** Concrete scenarios *)

Module Scenario.

(** A configured credential and a provider that answers every message. *)
Definition env_ok : Env :=
  {| EMERGENT_LLM_KEY := Some "sk-test";
     provider := fun _ m => Returns ("Re: " +:+ UserMessage.text m);
     uuid4 := fun n => "id-" +:+ Str.of_Z (Z.of_nat n);
     utcnow := fun n => "2025-01-01T00:00:0" +:+ Str.of_Z (Z.of_nat n) +:+ "+00:00" |}.

(** The same, with a provider whose every call times out. *)
Definition env_down : Env :=
  {| EMERGENT_LLM_KEY := Some "sk-test";
     provider := fun _ _ => Raises (Error "provider timeout");
     uuid4 := uuid4 env_ok;
     utcnow := utcnow env_ok |}.

Definition empty_world : World :=
  {| chat_objects := [];
     chat_messages := mk_collection [] None;
     candlestick_analyses := mk_collection [] None;
     log := [];
     draws := 0 |}.

(** Both collections unreachable. *)
Definition store_down : World :=
  {| chat_objects := [];
     chat_messages := mk_collection [] (Some "store unreachable");
     candlestick_analyses := mk_collection [] (Some "store unreachable");
     log := [];
     draws := 0 |}.

Definition png : UploadFile.t :=
  UploadFile.make "chart.png" (Some "image/png") [x4d; x61; x6e]%byte.

Definition txt : UploadFile.t :=
  UploadFile.make "notes.txt" (Some "text/plain") [x4d; x61; x6e]%byte.

Definition hello : ChatRequest.t := ChatRequest.make "hi" " S1 ".

Definition chat (id session_id timestamp : string) : ChatMessage.t :=
  ChatMessage.make id session_id "q" "a" timestamp.

Definition scan (id session_id timestamp : string) : CandlestickAnalysis.t :=
  CandlestickAnalysis.make id session_id "chart.png" "a" [] ∅ ∅ timestamp.

(** Two sessions, written out of timestamp order. *)
Definition with_history : World :=
  {| chat_objects := [];
     chat_messages :=
       mk_collection
         [chat "c1" "s1" "2025-01-01T00:00:03+00:00";
          chat "c2" "s2" "2025-01-01T00:00:02+00:00";
          chat "c3" "s1" "2025-01-01T00:00:01+00:00";
          chat "c4" "s1" "2025-01-01T00:00:02.500000+00:00"] None;
     candlestick_analyses :=
       mk_collection
         [scan "a1" "s1" "2025-01-01T00:00:01+00:00";
          scan "a2" "s2" "2025-01-01T00:00:02+00:00";
          scan "a3" "s1" "2025-01-01T00:00:03+00:00"] None;
     log := [];
     draws := 0 |}.

(** One session with 120 chat records, written newest first. *)
Definition crowded : World :=
  {| chat_objects := [];
     chat_messages :=
       mk_collection
         (List.map
            (fun n => chat "c" "s1" ("t" +:+ Str.of_Z (2000 - Z.of_nat n)))
            (seq 0 120)) None;
     candlestick_analyses := mk_collection [] None;
     log := [];
     draws := 0 |}.

End Scenario.

(** A session that is already past the chat history limit, and an
    environment whose clock reads later than every record in it. *)
Module Crowded.

Definition env : Env :=
  {| EMERGENT_LLM_KEY := Some "sk-test";
     provider := fun _ m => Returns ("Re: " +:+ UserMessage.text m);
     uuid4 := fun n => "id-" +:+ Str.of_Z (Z.of_nat n);
     utcnow := fun n => "t" +:+ Str.of_Z (3000 + Z.of_nat n) |}.

Definition request : ChatRequest.t := ChatRequest.make "one more" "s1".

End Crowded.

(** ** Python values and the two conversion helpers *)

(** A [datetime]: its fields, and the UTC offset in minutes when it is
    timezone-aware. *)
Record datetime : Type := mk_datetime {
  year : N;
  month : N;
  day : N;
  hour : N;
  minute : N;
  second : N;
  microsecond : N;
  utcoffset : option Z
}.

Definition digit (n : N) : ascii := ascii_of_N (48 + n mod 10).

(** ["%0<width>d" % n], for [n] below [10 ^ width]. *)
Fixpoint zero_padded (width : nat) (n : N) : string :=
  match width with
  | O => ""
  | S width' => zero_padded width' (n / 10) +:+ String (digit n) ""
  end.

(** The offset part of [isoformat()]: [+HH:MM] or [-HH:MM]. *)
Definition format_offset (offset : option Z) : string :=
  match offset with
  | None => ""
  | Some minutes =>
      let sign := if (minutes <? 0)%Z then "-" else "+" in
      let m := Z.to_N (Z.abs minutes) in
      sign +:+ zero_padded 2 (m / 60) +:+ ":" +:+ zero_padded 2 (m mod 60)
  end.

(** [d.isoformat()]: the fraction is printed only when it is not zero. *)
Definition isoformat (d : datetime) : string :=
  zero_padded 4 (year d) +:+ "-" +:+ zero_padded 2 (month d) +:+ "-" +:+
  zero_padded 2 (day d) +:+ "T" +:+ zero_padded 2 (hour d) +:+ ":" +:+
  zero_padded 2 (minute d) +:+ ":" +:+ zero_padded 2 (second d) +:+
  (if (microsecond d =? 0)%N then "" else "." +:+ zero_padded 6 (microsecond d))
  +:+ format_offset (utcoffset d).

(** The values the helpers inspect. A dict is the list of its items in
    iteration order; its keys are distinct. *)
#[warnings="-register-all"]
Inductive value : Type :=
| VNone
| VBool (b : bool)
| VInt (n : Z)
| VStr (s : string)
| VDatetime (d : datetime)
| VObjectId (hex : string)
| VList (items : list value)
| VDict (items : list (string * value)).

Definition is_dict (v : value) : bool :=
  match v with
  | VDict _ => true
  | _ => false
  end.

(** [prepare_for_mongo]: inside a dict, a datetime value becomes its ISO
    text, a dict value is converted in turn, and in a list value the items
    that are dicts are converted. *)
Fixpoint prepare_for_mongo (data : value) : value :=
  match data with
  | VDict items =>
      VDict
        (List.map
           (fun '(key, value) =>
              (key,
               match value with
               | VDatetime d => VStr (isoformat d)
               | VDict _ => prepare_for_mongo value
               | VList l =>
                   VList
                     (List.map
                        (fun item =>
                           match item with
                           | VDict _ => prepare_for_mongo item
                           | _ => item
                           end) l)
               | _ => value
               end)) items)
  | _ => data
  end.

Section FromMongo.
(** [str(value)], as far as [prepare_from_mongo] needs it. *)
Variable str_of : value -> string.

(** [prepare_from_mongo]: lists are converted item by item; inside a dict
    the value of ["_id"] becomes its [str()], and dict and list values are
    converted in turn. *)
Fixpoint prepare_from_mongo (data : value) : value :=
  match data with
  | VList l => VList (List.map prepare_from_mongo l)
  | VDict items =>
      VDict
        (List.map
           (fun '(key, value) =>
              (key,
               if String.eqb key "_id" then VStr (str_of value)
               else
                 match value with
                 | VDict _ => prepare_from_mongo value
                 | VList _ => prepare_from_mongo value
                 | _ => value
                 end)) items)
  | _ => data
  end.
End FromMongo.

(** [str()] of a value that is not a list or a dict: an ObjectId prints
    as its hex digits, a string as itself, a datetime as its ISO text with
    a space for the [T]. The text of a list or of a dict needs the [repr]
    of its items, which is not modelled: the definition gives the empty
    text there and is not applied to one. *)
Definition str_of_id (v : value) : string :=
  match v with
  | VStr s => s
  | VObjectId hex => hex
  | VInt n => Str.of_Z n
  | VNone => "None"
  | VBool true => "True"
  | VBool false => "False"
  | VDatetime d =>
      String.substring 0 10 (isoformat d) +:+ " "
      +:+ String.substring 11 (String.length (isoformat d) - 11) (isoformat d)
  | VList _ | VDict _ => ""
  end.

(** [ChatMessage(...).dict()] *)
Definition chat_message_dict (id session_id message response : string)
    (timestamp : datetime) : value :=
  VDict
    [("id", VStr id); ("session_id", VStr session_id); ("message", VStr message);
     ("response", VStr response); ("timestamp", VDatetime timestamp)].

(** [CandlestickAnalysis(...).dict()]; the two dicts of strings are given
    by their items. *)
Definition candlestick_analysis_dict (id session_id filename analysis : string)
    (patterns_detected : list string) (indicators recommendations : list (string * string))
    (timestamp : datetime) : value :=
  VDict
    [("id", VStr id); ("session_id", VStr session_id); ("filename", VStr filename);
     ("analysis", VStr analysis);
     ("patterns_detected", VList (List.map VStr patterns_detected));
     ("indicators", VDict (List.map (fun kv => (fst kv, VStr (snd kv))) indicators));
     ("recommendations",
      VDict (List.map (fun kv => (fst kv, VStr (snd kv))) recommendations));
     ("timestamp", VDatetime timestamp)].

(** No datetime anywhere in a value. *)
Fixpoint datetime_free (v : value) : bool :=
  match v with
  | VDatetime _ => false
  | VList l => forallb datetime_free l
  | VDict items => forallb (fun kv => datetime_free (snd kv)) items
  | _ => true
  end.

(** Every value stored under ["_id"], at any depth, is a string. *)
Fixpoint ids_are_strings (v : value) : bool :=
  match v with
  | VList l => forallb ids_are_strings l
  | VDict items =>
      forallb
        (fun kv =>
           if String.eqb (fst kv) "_id"
           then match snd kv with VStr _ => true | _ => false end
           else ids_are_strings (snd kv)) items
  | _ => true
  end.

(** The key ["_id"] occurs nowhere in a value. *)
Fixpoint id_free (v : value) : bool :=
  match v with
  | VList l => forallb id_free l
  | VDict items =>
      forallb (fun kv => negb (String.eqb (fst kv) "_id") && id_free (snd kv)) items
  | _ => true
  end.

(** The items of a dict. *)
Definition items_of (v : value) : list (string * value) :=
  match v with
  | VDict items => items
  | _ => []
  end.

(** The keys of a dict, in order. *)
Definition keys (v : value) : list string :=
  match v with
  | VDict items => List.map fst items
  | _ => []
  end.

Definition utc (y mo d h mi s us : N) : datetime :=
  mk_datetime y mo d h mi s us (Some 0%Z).

(** No field of a dict is a datetime, in the dicts that
    [prepare_for_mongo] visits: the dict itself, its dict values, and the
    dicts among the items of its list values. *)
Fixpoint fields_datetime_free (v : value) : bool :=
  match v with
  | VDict items =>
      forallb
        (fun '(_, value) =>
           match value with
           | VDatetime _ => false
           | VDict _ => fields_datetime_free value
           | VList l =>
               forallb
                 (fun item =>
                    match item with
                    | VDict _ => fields_datetime_free item
                    | _ => true
                    end) l
           | _ => true
           end) items
  | _ => true
  end.

(** ** The response encoding and the routes of the history reads *)

(** What the framework's encoder can turn into JSON: every value of the
    model but an ObjectId, alone or inside a list or a dict. *)
Fixpoint jsonable (v : value) : bool :=
  match v with
  | VObjectId _ => false
  | VList l => forallb jsonable l
  | VDict items => forallb (fun kv => jsonable (snd kv)) items
  | _ => true
  end.

(** The ObjectId the store gave a document on [insert_one]. The store
    chooses it; the model names it after the document's own id, and no
    statement depends on the name. *)
Definition object_id_of (id : string) : string := "oid-" +:+ id.

Definition string_fields (fields : list (string * string)) : list (string * value) :=
  List.map (fun kv => (fst kv, VStr (snd kv))) fields.

(** The document [find] yields for a stored chat record: the fields that
    were written, behind the [_id] of the store. *)
Definition chat_document (m : ChatMessage.t) : value :=
  VDict
    [("_id", VObjectId (object_id_of (ChatMessage.id m)));
     ("id", VStr (ChatMessage.id m));
     ("session_id", VStr (ChatMessage.session_id m));
     ("message", VStr (ChatMessage.message m));
     ("response", VStr (ChatMessage.response m));
     ("timestamp", VStr (ChatMessage.timestamp m))].

(** The document [find] yields for a stored analysis record. *)
Definition analysis_document (a : CandlestickAnalysis.t) : value :=
  VDict
    [("_id", VObjectId (object_id_of (CandlestickAnalysis.id a)));
     ("id", VStr (CandlestickAnalysis.id a));
     ("session_id", VStr (CandlestickAnalysis.session_id a));
     ("filename", VStr (CandlestickAnalysis.filename a));
     ("analysis", VStr (CandlestickAnalysis.analysis a));
     ("patterns_detected",
      VList (List.map VStr (CandlestickAnalysis.patterns_detected a)));
     ("indicators",
      VDict (string_fields (map_to_list (CandlestickAnalysis.indicators a))));
     ("recommendations",
      VDict (string_fields (map_to_list (CandlestickAnalysis.recommendations a))));
     ("timestamp", VStr (CandlestickAnalysis.timestamp a))].

(** The dicts the two history handlers return: the documents as the store
    yielded them ([prepare_from_mongo] is not applied), and the session id. *)
Definition chat_history_body (h : ChatHistory.t) : value :=
  VDict
    [("chats", VList (List.map chat_document (ChatHistory.chats h)));
     ("session_id", VStr (ChatHistory.session_id h))].

Definition analysis_history_body (h : AnalysisHistory.t) : value :=
  VDict
    [("analyses", VList (List.map analysis_document (AnalysisHistory.analyses h)));
     ("session_id", VStr (AnalysisHistory.session_id h))].

(** A route whose handler returns store documents. The framework encodes
    the return value after the handler has returned, outside its
    [try]/[except]; a value it cannot encode ends in the framework's own
    answer, status 500. *)
Definition serve_encoded {A} (body_of : A -> value) (handler : M A) (w : World)
    : http_response A * World :=
  let (o, w') := handler w in
  (match o with
   | Returns body =>
       if jsonable (body_of body) then Http200 body
       else HttpError 500 "Internal Server Error"
   | Raises e => respond (Raises e)
   end, w').

(** GET /api/chat-history/{session_id} *)
Definition get_chat_history_route (session_id : string) :=
  serve_encoded chat_history_body (get_chat_history session_id).

(** GET /api/analysis-history/{session_id} *)
Definition get_analysis_history_route (session_id : string) :=
  serve_encoded analysis_history_body (get_analysis_history session_id).

(** ** Where the analysis route takes its session id from *)

(** What a POST /api/analyze-candlestick request can say about the session:
    a [session_id] field in the multipart form beside the file, and a
    [session_id] parameter in the query string. *)
Module AnalyzeRequest.
Record t : Type := make {
  file : UploadFile.t;
  form_session_id : option string;
  query_session_id : option string
}.
End AnalyzeRequest.


(** ** Configuration read at start-up *)

(** [s.split(sep)] for a one-character separator. *)
Fixpoint split (sep : ascii) (s : string) : list string :=
  match s with
  | EmptyString => [""]
  | String c t =>
      if Ascii.eqb c sep then "" :: split sep t
      else
        match split sep t with
        | [] => [String c ""]
        | piece :: rest => String c piece :: rest
        end
  end.

(** [sep.join(pieces)] *)
Fixpoint join (sep : string) (pieces : list string) : string :=
  match pieces with
  | [] => ""
  | [piece] => piece
  | piece :: rest => piece +:+ sep +:+ join sep rest
  end.

(** [os.environ.get('CORS_ORIGINS', '*').split(',')] *)
Definition allow_origins (CORS_ORIGINS : option string) : list string :=
  split ","%char (default "*" CORS_ORIGINS).

(** The number of occurrences of a character. *)
Fixpoint occurrences (c : ascii) (s : string) : nat :=
  match s with
  | EmptyString => 0
  | String x t => (if Ascii.eqb x c then 1 else 0) + occurrences c t
  end.

(** The 64 characters of the base64 alphabet. *)
Definition b64_alphabet : string :=
  "ABCDEFGHIJKLMNOPQRSTUVWXYZabcdefghijklmnopqrstuvwxyz0123456789+/".

(** The order of two datetimes by their fields, most significant first. *)
Definition compare_fields (a b : datetime) : comparison :=
  match (year a ?= year b)%N with
  | Eq =>
    match (month a ?= month b)%N with
    | Eq =>
      match (day a ?= day b)%N with
      | Eq =>
        match (hour a ?= hour b)%N with
        | Eq =>
          match (minute a ?= minute b)%N with
          | Eq =>
            match (second a ?= second b)%N with
            | Eq => (microsecond a ?= microsecond b)%N
            | c => c
            end
          | c => c
          end
        | c => c
        end
      | c => c
      end
    | c => c
    end
  | c => c
  end.

(** The fields fit the widths [isoformat] prints them in, as they do for
    every datetime Python constructs. *)
Definition fits (d : datetime) : Prop :=
  (year d < 10000 ∧ month d < 100 ∧ day d < 100 ∧ hour d < 100
   ∧ minute d < 100 ∧ second d < 100 ∧ microsecond d < 1000000)%N.


(** Unfolds a handler down to the state it is run on. *)
Ltac run_handler :=
  unfold post_chat, post_analyze_candlestick, serve, chat_with_ai,
    analyze_candlestick_chart, analyze_candlestick_image, get_chat_history,
    get_analysis_history, content_type_is_image, get_llm_chat, send_message,
    query_chats, query_analyses, insert_one_chat, insert_one_analysis,
    new_LlmChat, draw, logging_error, try_except, bind, ret, raise.

(** * Properties *)

(** ** Worked inputs *)

Example b64encode_Man : b64encode [x4d; x61; x6e]%byte = "TWFu".
Proof. reflexivity. Qed.

Example b64encode_padding :
  b64encode [x4d; x61]%byte = "TWE=" /\ b64encode [x4d]%byte = "TQ==".
Proof. split; reflexivity. Qed.

Example detect_doji :
  detect_patterns "A Doji near support; place a stop loss and BUY." = ["Doji"].
Proof. reflexivity. Qed.

Example detect_order :
  detect_patterns "inside bar, then a HAMMER, then a shooting star, hammer again"
  = ["Hammer"; "Shooting star"; "Inside bar"].
Proof. reflexivity. Qed.

Example recs_buy_sell :
  extract_recommendations "sell now, buy later" !! "action" = Some "Potential buy signal".
Proof. vm_compute. reflexivity. Qed.

Example chat_history_s1 :
  fst (get_chat_history "s1" Scenario.with_history)
  = Returns
      (ChatHistory.make
         [Scenario.chat "c3" "s1" "2025-01-01T00:00:01+00:00";
          Scenario.chat "c4" "s1" "2025-01-01T00:00:02.500000+00:00";
          Scenario.chat "c1" "s1" "2025-01-01T00:00:03+00:00"] "s1").
Proof. reflexivity. Qed.

Example chat_history_cap :
  match fst (get_chat_history "s1" Scenario.crowded) with
  | Returns h =>
      length (ChatHistory.chats h) = 100%nat
      /\ ChatMessage.timestamp <$> head (ChatHistory.chats h) = Some "t1881"
      /\ ChatMessage.timestamp <$> last (ChatHistory.chats h) = Some "t1980"
  | Raises _ => False
  end.
Proof. vm_compute. repeat split. Qed.

Example analysis_history_s1 :
  fst (get_analysis_history "s1" Scenario.with_history)
  = Returns
      (AnalysisHistory.make
         [Scenario.scan "a3" "s1" "2025-01-01T00:00:03+00:00";
          Scenario.scan "a1" "s1" "2025-01-01T00:00:01+00:00"] "s1").
Proof. reflexivity. Qed.

Example chat_document_is_not_jsonable :
  jsonable (chat_document (Scenario.chat "c1" "s1" "2025-01-01T00:00:03+00:00"))
  = false
  /\ jsonable
       (prepare_from_mongo str_of_id
          (chat_document (Scenario.chat "c1" "s1" "2025-01-01T00:00:03+00:00")))
     = true.
Proof. split; reflexivity. Qed.

Example lower_utf8_dotted_I :
  lower_utf8 ("DOJ" +:+ String "196" (String "176" " seen"))
  = "doji" +:+ String "204" (String "135" " seen")
  /\ detect_patterns_with lower_utf8 ("DOJ" +:+ String "196" (String "176" " seen"))
     = ["Doji"].
Proof. split; reflexivity. Qed.

(** ** Substring test *)

Lemma startswith_spec (p s : string) :
  Str.startswith p s = true <-> exists post, s = p +:+ post.
Proof.
  revert s. induction p as [|a p IH]; intros s; simpl.
  - split; [intros _; by exists s | done].
  - destruct s as [|b s].
    + split; [done | intros [post H]; discriminate H].
    + destruct (Ascii.eqb_spec a b) as [->|Hne].
      * rewrite IH. split; intros [post H]; exists post.
        -- by rewrite H.
        -- by injection H.
      * split; [done | intros [post H]; injection H; congruence].
Qed.

Lemma contains_spec (needle hay : string) :
  Str.contains needle hay = true <-> Str.is_substring needle hay.
Proof.
  unfold Str.is_substring.
  induction hay as [|c hay IH]; simpl.
  - rewrite orb_false_r, startswith_spec. split.
    + intros [post H]. by exists "", post.
    + intros (pre & post & H). destruct pre; [by exists post | discriminate H].
  - rewrite orb_true_iff, startswith_spec, IH. split.
    + intros [[post H] | (pre & post & H)].
      * by exists "", post.
      * exists (String c pre), post. simpl. by rewrite H.
    + intros (pre & post & H). destruct pre as [|c' pre].
      * left. by exists post.
      * right. injection H as _ H. by exists pre, post.
Qed.

Lemma detect_loop_filter (keywords : list string) (text : string) (acc : list string) :
  detect_loop keywords text acc =
  acc ++ (Str.capitalize <$>
            filter (λ p, Str.contains (Str.lower p) (Str.lower text)) keywords).
Proof.
  revert acc. induction keywords as [|p ks IH]; intros acc; simpl.
  - by rewrite app_nil_r.
  - rewrite filter_cons.
    destruct (Str.contains (Str.lower p) (Str.lower text)); simpl.
    + rewrite IH. by rewrite <- app_assoc.
    + apply IH.
Qed.

Lemma capitalize_keywords_inj (p q : string) :
  p ∈ pattern_keywords -> q ∈ pattern_keywords ->
  Str.capitalize p = Str.capitalize q -> p = q.
Proof.
  unfold pattern_keywords. intros Hp Hq.
  repeat (apply elem_of_cons in Hp as [->|Hp]);
    try (by apply elem_of_nil in Hp);
    repeat (apply elem_of_cons in Hq as [->|Hq]);
    try (by apply elem_of_nil in Hq); (done || (vm_compute; discriminate)).
Qed.

Lemma pattern_keywords_NoDup : NoDup pattern_keywords.
Proof. apply (bool_decide_unpack _). by vm_compute. Qed.

Lemma detect_loop_with_filter (lower : string -> string)
    (keywords : list string) (text : string) (acc : list string) :
  detect_loop_with lower keywords text acc =
  acc ++ (Str.capitalize <$>
            filter (λ p, Str.contains (lower p) (lower text)) keywords).
Proof.
  revert acc. induction keywords as [|p ks IH]; intros acc; simpl.
  - by rewrite app_nil_r.
  - rewrite filter_cons.
    destruct (Str.contains (lower p) (lower text)); simpl.
    + rewrite IH. by rewrite <- app_assoc.
    + apply IH.
Qed.

(** On the model's ASCII lower-casing the general loop is the loop of the
    handler. *)
Lemma detect_patterns_ascii (text : string) :
  detect_patterns text = detect_patterns_with Str.lower text.
Proof. reflexivity. Qed.

(** C4. For every response text, and whatever lower-casing does to the
    text as long as it leaves the six vocabulary terms as they are, the
    detected patterns are the vocabulary terms whose lowercase form is a
    substring of the lowercased text, each capitalized and listed once, in
    the order of the vocabulary list; a text whose lowercase form contains
    "doji" and no other term yields ["Doji"]. *)
Theorem detect_patterns_vocabulary (lower : string → string) (text : string) :
  (∀ p, p ∈ pattern_keywords → lower p = p) →
  detect_patterns_with lower text =
    (Str.capitalize <$>
       filter (λ p, Str.contains (lower p) (lower text)) pattern_keywords)
  ∧ NoDup (detect_patterns_with lower text)
  ∧ (∀ p, p ∈ pattern_keywords →
          Str.capitalize p ∈ detect_patterns_with lower text
          ↔ Str.is_substring (lower p) (lower text))
  ∧ (∀ x, x ∈ detect_patterns_with lower text →
          ∃ p, p ∈ pattern_keywords ∧ x = Str.capitalize p)
  ∧ (Str.is_substring "doji" (lower text) →
     (∀ p, p ∈ pattern_keywords → p ≠ "doji" →
           ¬ Str.is_substring (lower p) (lower text)) →
     detect_patterns_with lower text = ["Doji"]).
Proof.
  intros Hfix.
  assert (Heq : detect_patterns_with lower text =
    (Str.capitalize <$>
       filter (λ p, Str.contains (lower p) (lower text)) pattern_keywords))
    by (unfold detect_patterns_with; by rewrite detect_loop_with_filter).
  split; [exact Heq |]. rewrite Heq. clear Heq.
  split; [| split; [| split]].
  - apply NoDup_fmap_2_strong.
    + intros p q Hp%list_elem_of_filter Hq%list_elem_of_filter.
      apply capitalize_keywords_inj; tauto.
    + apply NoDup_filter, pattern_keywords_NoDup.
  - intros p Hp. rewrite <- contains_spec, list_elem_of_fmap. split.
    + intros (q & Hc & [Hq Hin]%list_elem_of_filter).
      apply capitalize_keywords_inj in Hc as ->; [| done..].
      by apply Is_true_true.
    + intros H. exists p. split; [done |].
      apply list_elem_of_filter. split; [by apply Is_true_true | done].
  - intros x (p & -> & [_ Hin]%list_elem_of_filter)%list_elem_of_fmap. eauto.
  - intros Hdoji Hrest.
    apply contains_spec in Hdoji.
    assert (Hno : ∀ p, p ∈ pattern_keywords → p ≠ "doji" →
              Str.contains (lower p) (lower text) = false).
    { intros p Hp Hne. apply not_true_is_false. rewrite contains_spec. auto. }
    assert (Hd : lower "doji" = "doji") by (apply Hfix; set_solver).
    unfold pattern_keywords in *.
    rewrite !filter_cons, filter_nil. rewrite Hd, Hdoji.
    rewrite !Hno by (set_solver || done). done.
Qed.

Lemma detect_patterns_vocabulary_witness :
  detect_patterns_with lower_utf8
    ("DOJ" +:+ String "196" (String "176" " seen; stop loss; BUY")) = ["Doji"].
Proof.
  assert (Hfix : ∀ p, p ∈ pattern_keywords → lower_utf8 p = p).
  { intros p Hp. unfold pattern_keywords in Hp.
    repeat (apply elem_of_cons in Hp as [->|Hp]); try reflexivity.
    by apply elem_of_nil in Hp. }
  destruct (detect_patterns_vocabulary lower_utf8
              ("DOJ" +:+ String "196" (String "176" " seen; stop loss; BUY")) Hfix)
    as (_ & _ & _ & _ & H).
  apply H.
  - apply contains_spec. reflexivity.
  - intros p Hp Hne. rewrite <- contains_spec.
    unfold pattern_keywords in Hp.
    repeat (apply elem_of_cons in Hp as [->|Hp]); try done;
      by apply elem_of_nil in Hp.
Defined.

(** C5. The recommendation tags are independent presence tests on the
    lowercased text: the risk-management tag iff "stop loss" occurs, the
    profit-booking tag iff "profit" occurs, and one action tag that is the
    buy signal when "buy" occurs, else the sell signal when "sell" occurs,
    and absent when neither occurs; no other key is ever set. *)
Theorem recommendation_tags (text : string) :
  let t := Str.lower text in
  let r := extract_recommendations text in
  (r !! "risk_management" = Some "Stop loss recommended"
     ↔ Str.is_substring "stop loss" t)
  ∧ (r !! "risk_management" = None ↔ ¬ Str.is_substring "stop loss" t)
  ∧ (r !! "profit_booking" = Some "Profit targets identified"
     ↔ Str.is_substring "profit" t)
  ∧ (r !! "profit_booking" = None ↔ ¬ Str.is_substring "profit" t)
  ∧ (Str.is_substring "buy" t → r !! "action" = Some "Potential buy signal")
  ∧ (¬ Str.is_substring "buy" t → Str.is_substring "sell" t →
     r !! "action" = Some "Potential sell signal")
  ∧ (¬ Str.is_substring "buy" t → ¬ Str.is_substring "sell" t →
     r !! "action" = None)
  ∧ dom r ⊆ ({["risk_management"; "profit_booking"; "action"]} : gset string).
Proof.
  intros t r. subst r. unfold extract_recommendations. fold t.
  rewrite <- !contains_spec.
  destruct (Str.contains "stop loss" t), (Str.contains "profit" t),
    (Str.contains "buy" t), (Str.contains "sell" t);
    repeat split; try (intros; by simplify_map_eq);
    try (apply (bool_decide_unpack _); by vm_compute).
Qed.

Lemma recommendation_tags_witness :
  extract_recommendations "Place a Stop Loss below the doji, then BUY; do not sell."
    !! "action" = Some "Potential buy signal".
Proof.
  apply (recommendation_tags "Place a Stop Loss below the doji, then BUY; do not sell.").
  apply contains_spec. reflexivity.
Defined.

(** ** The store's ordering *)

Lemma string_leb_trans (a b c : string) :
  String.leb a b = true -> String.leb b c = true -> String.leb a c = true.
Proof.
  unfold String.leb. revert b c.
  induction a as [|x a IH]; intros [|y b] [|z c]; simpl; try done.
  unfold Ascii.compare.
  destruct (N.compare_spec (N_of_ascii x) (N_of_ascii y)) as [Hxy|Hxy|Hxy];
    destruct (N.compare_spec (N_of_ascii y) (N_of_ascii z)) as [Hyz|Hyz|Hyz];
    destruct (N.compare_spec (N_of_ascii x) (N_of_ascii z)) as [Hxz|Hxz|Hxz];
    try done; try lia.
  apply IH.
Qed.

Section CursorFacts.
Context {A : Type}.
Variable session_of : A -> string.
Variable timestamp_of : A -> string.


#[local] Instance in_order_trans direction : Transitive (in_order timestamp_of direction).
Proof.
  intros a b c. unfold in_order, before. destruct (0 <=? direction); intros H1 H2.
  - exact (string_leb_trans _ _ _ H1 H2).
  - exact (string_leb_trans _ _ _ H2 H1).
Qed.

Lemma place_perm direction d l : place timestamp_of direction d l ≡ₚ d :: l.
Proof.
  induction l as [|x r IH]; simpl; [done |].
  destruct (before timestamp_of direction d x); [done |].
  rewrite IH. apply Permutation_swap.
Qed.

Lemma sort_perm direction l : sort timestamp_of direction l ≡ₚ l.
Proof.
  induction l as [|x r IH]; simpl; [done |].
  rewrite place_perm. by rewrite IH.
Qed.



Lemma find_elem session_id l d :
  d ∈ find session_of session_id l <-> d ∈ l ∧ session_of d = session_id.
Proof.
  unfold find. rewrite !list_elem_of_In, filter_In.
  by rewrite String.eqb_eq.
Qed.

Lemma find_none session_id l :
  (forall d, d ∈ l -> session_of d ≠ session_id) ->
  find session_of session_id l = [].
Proof.
  intros H. destruct (find session_of session_id l) as [|d r] eqn:E; [done |].
  assert (Hd : d ∈ find session_of session_id l) by (rewrite E; left).
  apply find_elem in Hd as [Hd Hs]. by apply H in Hd.
Qed.
End CursorFacts.

(** ** History reads *)


Lemma chat_history_jsonable (h : ChatHistory.t) :
  jsonable (chat_history_body h)
  = match ChatHistory.chats h with [] => true | _ => false end.
Proof. destruct h as [[|m l] sid]; reflexivity. Qed.

Lemma analysis_history_jsonable (h : AnalysisHistory.t) :
  jsonable (analysis_history_body h)
  = match AnalysisHistory.analyses h with [] => true | _ => false end.
Proof. destruct h as [[|a l] sid]; reflexivity. Qed.



(** The session "s1" holds three chat records and two analysis records. The
    two handlers return them in order, but they return the store's
    documents, ObjectId included, and the routes answer 500; a session
    without records is answered with 200 and an empty list. *)
Example history_of_records_answers_500 :
  fst (get_chat_history "s1" Scenario.with_history)
  = Returns
      (ChatHistory.make
         [Scenario.chat "c3" "s1" "2025-01-01T00:00:01+00:00";
          Scenario.chat "c4" "s1" "2025-01-01T00:00:02.500000+00:00";
          Scenario.chat "c1" "s1" "2025-01-01T00:00:03+00:00"] "s1")
  ∧ fst (get_chat_history_route "s1" Scenario.with_history)
    = HttpError 500 "Internal Server Error"
  ∧ fst (get_analysis_history "s1" Scenario.with_history)
    = Returns
        (AnalysisHistory.make
           [Scenario.scan "a3" "s1" "2025-01-01T00:00:03+00:00";
            Scenario.scan "a1" "s1" "2025-01-01T00:00:01+00:00"] "s1")
  ∧ fst (get_analysis_history_route "s1" Scenario.with_history)
    = HttpError 500 "Internal Server Error"
  ∧ fst (get_chat_history_route "nobody" Scenario.with_history)
    = Http200 (ChatHistory.make [] "nobody")
  ∧ fst (get_analysis_history_route "nobody" Scenario.with_history)
    = Http200 (AnalysisHistory.make [] "nobody").
Proof.
  repeat split; reflexivity.
Qed.

(** C8. When the store operation of a history read fails, the endpoint
    answers normally with an empty list and the requested session id. *)
Theorem history_read_failure_is_empty (session_id msg : string) (w : World) :
  (fault (chat_messages w) = Some msg →
   get_chat_history_route session_id w
   = (Http200 (ChatHistory.make [] session_id),
      snd (logging_error ("Error fetching chat history: " +:+ msg) w)))
  ∧ (fault (candlestick_analyses w) = Some msg →
     get_analysis_history_route session_id w
     = (Http200 (AnalysisHistory.make [] session_id),
        snd (logging_error ("Error fetching analysis history: " +:+ msg) w))).
Proof.
  split; intros H;
    unfold get_chat_history_route, get_analysis_history_route, serve_encoded;
    run_handler; by rewrite H.
Qed.

Lemma history_read_failure_is_empty_witness :
  fst (get_chat_history_route "s1" Scenario.store_down)
    = Http200 (ChatHistory.make [] "s1")
  ∧ fst (get_analysis_history_route "s1" Scenario.store_down)
    = Http200 (AnalysisHistory.make [] "s1").
Proof.
  destruct (history_read_failure_is_empty "s1" "store unreachable" Scenario.store_down)
    as [Hc Ha].
  split.
  - by rewrite Hc.
  - by rewrite Ha.
Defined.

(** ** The gateway *)

Lemma get_llm_chat_configured env session_id system_message w :
  truthy (EMERGENT_LLM_KEY env) = true ->
  get_llm_chat env session_id system_message w
  = new_LlmChat (configured_chat env session_id system_message) w.
Proof.
  intros Hk. unfold get_llm_chat, configured_chat, bind, ret. rewrite Hk. simpl.
  by destruct (truthy system_message).
Qed.

Lemma send_message_new env c user_message w :
  send_message env (length (chat_objects w)) user_message
    (snd (new_LlmChat c w))
  = (provider env c user_message, snd (new_LlmChat c w)).
Proof.
  unfold send_message, new_LlmChat. simpl.
  by rewrite list_lookup_middle.
Qed.

(** C9 (as amended). Every gateway invocation with a configured credential
    constructs a new chat object for the given session id: the returned
    reference names no object that existed before, the objects that existed
    stay as they were, and nothing else changes; without a credential it
    raises a server error and constructs nothing. *)
Theorem gateway_constructs_fresh_handle env (session_id : string)
    (system_message : option string) (w : World) :
  (truthy (EMERGENT_LLM_KEY env) = true →
   ∃ w',
     get_llm_chat env session_id system_message w
     = (Returns (length (chat_objects w)), w')
     ∧ chat_objects w !! length (chat_objects w) = None
     ∧ chat_objects w'
       = chat_objects w ++ [configured_chat env session_id system_message]
     ∧ LlmChat.session_id (configured_chat env session_id system_message)
       = session_id
     ∧ (∀ i c, chat_objects w !! i = Some c → chat_objects w' !! i = Some c)
     ∧ chat_messages w' = chat_messages w
     ∧ candlestick_analyses w' = candlestick_analyses w)
  ∧ (truthy (EMERGENT_LLM_KEY env) = false →
     get_llm_chat env session_id system_message w
     = (Raises (HTTPException 500 "LLM API key not configured"), w)).
Proof.
  split; intros Hk.
  - rewrite get_llm_chat_configured by done.
    eexists. split; [reflexivity |]. simpl.
    split; [by apply lookup_ge_None |].
    split; [done |]. split; [done |].
    split; [| done].
    intros i c Hi. by apply lookup_app_l_Some.
  - unfold get_llm_chat, raise. by rewrite Hk.
Qed.

Lemma gateway_constructs_fresh_handle_witness :
  ∃ w',
    get_llm_chat Scenario.env_ok "s1" None Scenario.empty_world = (Returns 0%nat, w')
    ∧ chat_objects w' = [configured_chat Scenario.env_ok "s1" None].
Proof.
  destruct (gateway_constructs_fresh_handle Scenario.env_ok "s1" None
              Scenario.empty_world) as [Hok _].
  destruct (Hok eq_refl) as (w' & Hrun & _ & Hobjs & _).
  exists w'. split; [exact Hrun | exact Hobjs].
Defined.

(** C9 as stated fails: two invocations with the same session id construct
    two chat objects and return two different references. *)
Lemma gateway_reuse_counterexample :
  let first := get_llm_chat Scenario.env_ok "s1" None Scenario.empty_world in
  let second := get_llm_chat Scenario.env_ok "s1" None (snd first) in
  fst first = Returns 0%nat
  ∧ fst second = Returns 1%nat
  ∧ fst first ≠ fst second
  ∧ length (chat_objects (snd second)) = 2%nat.
Proof.
  repeat split; try reflexivity. discriminate.
Qed.

(** ** Chat turns *)

(** C7. Whenever the chat endpoint answers normally, the session id in the
    answer is the request's session id, unchanged; and it does answer
    normally, with the provider's text, whenever the credential is set, the
    provider returns and the store accepts the write, in which case the
    persisted record carries the same session id. *)
Theorem chat_session_id_verbatim env (request : ChatRequest.t) (w : World) :
  (∀ body w', post_chat env request w = (Http200 body, w') →
      ChatResponse.session_id body = ChatRequest.session_id request)
  ∧ (∀ r, truthy (EMERGENT_LLM_KEY env) = true →
      provider env (configured_chat env (ChatRequest.session_id request) None)
        (UserMessage.make (ChatRequest.message request) []) = Returns r →
      fault (chat_messages w) = None →
      ∃ w', post_chat env request w
            = (Http200 (ChatResponse.make r (ChatRequest.session_id request)), w')
          ∧ docs (chat_messages w')
            = docs (chat_messages w) ++
              [ChatMessage.make (uuid4 env (draws w))
                 (ChatRequest.session_id request)
                 (ChatRequest.message request) r (utcnow env (S (draws w)))]).
Proof.
  split.
  - intros body w'. unfold post_chat, serve, chat_with_ai, try_except.
    unfold bind at 1.
    destruct (truthy (EMERGENT_LLM_KEY env)) eqn:Hk.
    + rewrite get_llm_chat_configured by done.
      change (new_LlmChat ?c w) with
        (Returns (length (chat_objects w)), snd (new_LlmChat c w)).
      cbv beta iota. unfold bind at 1. rewrite send_message_new.
      destruct (provider env _ _) as [r|e]; [| simpl; discriminate].
      run_handler. simpl.
      destruct (fault (chat_messages w)); simpl; [discriminate |].
      intros [= <- _]. done.
    + unfold get_llm_chat, raise. rewrite Hk. simpl. discriminate.
  - intros r Hk Hp Hf. unfold post_chat, serve, chat_with_ai, try_except.
    unfold bind at 1. rewrite get_llm_chat_configured by done.
    change (new_LlmChat ?c w) with
      (Returns (length (chat_objects w)), snd (new_LlmChat c w)).
    cbv beta iota. unfold bind at 1. rewrite send_message_new, Hp.
    run_handler. simpl. rewrite Hf. simpl.
    eexists. split; reflexivity.
Qed.

Lemma chat_session_id_verbatim_witness :
  ∃ w', post_chat Scenario.env_ok Scenario.hello Scenario.empty_world
        = (Http200 (ChatResponse.make "Re: hi" " S1 "), w')
      ∧ docs (chat_messages w')
        = [ChatMessage.make "id-0" " S1 " "hi" "Re: hi" "2025-01-01T00:00:01+00:00"].
Proof.
  destruct (chat_session_id_verbatim Scenario.env_ok Scenario.hello
              Scenario.empty_world) as [_ Hrun].
  destruct (Hrun "Re: hi" eq_refl eq_refl eq_refl) as (w' & Hresp & Hdocs).
  exists w'. split; [exact Hresp | exact Hdocs].
Defined.

(** ** Analysis turns *)

(** The helper never raises: a failure of the gateway or of the provider
    comes back as the text of an error message, and the store is not
    touched. *)
Lemma analyze_candlestick_image_returns env image_base64 session_id w :
  ∃ text w',
    analyze_candlestick_image env image_base64 session_id w = (Returns text, w')
    ∧ chat_messages w' = chat_messages w
    ∧ candlestick_analyses w' = candlestick_analyses w
    ∧ draws w' = draws w
    ∧ (truthy (EMERGENT_LLM_KEY env) = true →
       text =
         match provider env
                 (configured_chat env session_id (Some analysis_system_message))
                 (UserMessage.make analysis_prompt [ImageContent.make image_base64])
         with
         | Returns response => response
         | Raises e => "Error analyzing image: " +:+ str e
         end).
Proof.
  unfold analyze_candlestick_image, try_except. unfold bind at 1.
  destruct (truthy (EMERGENT_LLM_KEY env)) eqn:Hk.
  - rewrite get_llm_chat_configured by done.
    change (new_LlmChat ?c w) with
      (Returns (length (chat_objects w)), snd (new_LlmChat c w)).
    cbv beta iota. unfold bind at 1. rewrite send_message_new.
    destruct (provider env _ _) as [r|e]; eexists _, _; (split; [reflexivity |]);
      by repeat split.
  - unfold get_llm_chat, raise. rewrite Hk. simpl.
    eexists _, _. split; [reflexivity |]. by repeat split.
Qed.

(** What the analysis handler does with an image upload once the helper
    has returned. *)
Lemma analyze_candlestick_chart_image env file session_id ct w text w1 :
  UploadFile.content_type file = Some ct ->
  Str.startswith "image/" ct = true ->
  analyze_candlestick_image env (b64encode (UploadFile.content file)) session_id w
  = (Returns text, w1) ->
  analyze_candlestick_chart env file session_id w
  = try_except
      (let* id := draw (uuid4 env) in
       let* timestamp := draw (utcnow env) in
       insert_one_analysis
         (CandlestickAnalysis.make id session_id (UploadFile.filename file) text
            (detect_patterns text) ∅ (extract_recommendations text) timestamp) >>
       ret (AnalysisResponse.make text (detect_patterns text)
              (extract_recommendations text) session_id (UploadFile.filename file)))
      (fun e =>
         logging_error ("Candlestick analysis error: " +:+ str e) >>
         raise (HTTPException 500 ("Analysis failed: " +:+ str e)))
      w1.
Proof.
  intros Hct Himg Hrun.
  unfold analyze_candlestick_chart, try_except, content_type_is_image.
  rewrite Hct. unfold bind at 1. unfold ret at 1. cbv beta iota.
  rewrite Himg. cbv beta iota. unfold bind at 1. unfold negb, ret at 1.
  cbv beta iota. unfold bind at 1. rewrite Hrun. reflexivity.
Qed.

Lemma analyze_chart_store_ok env file session_id ct w :
  UploadFile.content_type file = Some ct ->
  Str.startswith "image/" ct = true ->
  fault (candlestick_analyses w) = None ->
  ∃ text w1 w',
    analyze_candlestick_image env (b64encode (UploadFile.content file)) session_id w
    = (Returns text, w1)
    ∧ analyze_candlestick_chart env file session_id w
      = (Returns (AnalysisResponse.make text (detect_patterns text)
                    (extract_recommendations text) session_id
                    (UploadFile.filename file)), w')
    ∧ docs (candlestick_analyses w')
      = docs (candlestick_analyses w) ++
        [CandlestickAnalysis.make (uuid4 env (draws w)) session_id
           (UploadFile.filename file) text (detect_patterns text) ∅
           (extract_recommendations text) (utcnow env (S (draws w)))].
Proof.
  intros Hct Himg Hf.
  destruct (analyze_candlestick_image_returns env
              (b64encode (UploadFile.content file)) session_id w)
    as (text & w1 & Hrun & _ & Ha & Hd & _).
  exists text, w1. eexists. split; [exact Hrun |].
  rewrite (analyze_candlestick_chart_image _ _ _ _ _ _ _ Hct Himg Hrun).
  run_handler. simpl. rewrite Ha, Hf, Hd. simpl. split; reflexivity.
Qed.

(** Every provider failure on an image upload ends in a normal return
    whose analysis is the error text, and in a persisted record holding it. *)
Lemma analyze_chart_provider_failure env file session_id ct e w :
  UploadFile.content_type file = Some ct ->
  Str.startswith "image/" ct = true ->
  truthy (EMERGENT_LLM_KEY env) = true ->
  provider env (configured_chat env session_id (Some analysis_system_message))
    (UserMessage.make analysis_prompt
       [ImageContent.make (b64encode (UploadFile.content file))]) = Raises e ->
  fault (candlestick_analyses w) = None ->
  let text := "Error analyzing image: " +:+ str e in
  ∃ w',
    analyze_candlestick_chart env file session_id w
    = (Returns (AnalysisResponse.make text (detect_patterns text)
                  (extract_recommendations text) session_id
                  (UploadFile.filename file)), w')
    ∧ docs (candlestick_analyses w')
      = docs (candlestick_analyses w) ++
        [CandlestickAnalysis.make (uuid4 env (draws w)) session_id
           (UploadFile.filename file) text (detect_patterns text) ∅
           (extract_recommendations text) (utcnow env (S (draws w)))].
Proof.
  intros Hct Himg Hk Hp Hf text.
  destruct (analyze_chart_store_ok env file session_id ct w Hct Himg Hf)
    as (text1 & w1 & w' & Hrun & Hchart & Hdocs).
  destruct (analyze_candlestick_image_returns env
              (b64encode (UploadFile.content file)) session_id w)
    as (text2 & w2 & Hrun2 & _ & _ & _ & Htext).
  rewrite Hrun in Hrun2. injection Hrun2 as -> _.
  specialize (Htext Hk). rewrite Hp in Htext. subst text2.
  exists w'. by split.
Qed.

Lemma analyze_chart_store_down env file session_id ct w msg :
  UploadFile.content_type file = Some ct ->
  Str.startswith "image/" ct = true ->
  fault (candlestick_analyses w) = Some msg ->
  ∃ w',
    analyze_candlestick_chart env file session_id w
    = (Raises (HTTPException 500 ("Analysis failed: " +:+ msg)), w')
    ∧ candlestick_analyses w' = candlestick_analyses w.
Proof.
  intros Hct Himg Hf.
  destruct (analyze_candlestick_image_returns env
              (b64encode (UploadFile.content file)) session_id w)
    as (text & w1 & Hrun & _ & Ha & _).
  rewrite (analyze_candlestick_chart_image _ _ _ _ _ _ _ Hct Himg Hrun).
  run_handler. simpl. rewrite Ha, Hf. simpl. eexists. split; [reflexivity | done].
Qed.

Lemma analyze_chart_not_image env file session_id ct w :
  UploadFile.content_type file = Some ct ->
  Str.startswith "image/" ct = false ->
  analyze_candlestick_chart env file session_id w
  = (Raises (HTTPException 500 "Analysis failed: 400: File must be an image"),
     logged "Candlestick analysis error: 400: File must be an image" w).
Proof.
  intros Hct Himg. run_handler. rewrite Hct, Himg. reflexivity.
Qed.

(** C3 (as amended). When the store write fails after the model call, the
    endpoint answers with status 500 whose detail carries the store's
    error; the computed response is not returned and the collection is
    left as it was. *)
Theorem store_write_failure_is_an_error env (w : World) (msg : string) :
  (∀ request r,
      truthy (EMERGENT_LLM_KEY env) = true →
      provider env (configured_chat env (ChatRequest.session_id request) None)
        (UserMessage.make (ChatRequest.message request) []) = Returns r →
      fault (chat_messages w) = Some msg →
      ∃ w', post_chat env request w
            = (HttpError 500 ("Chat service error: " +:+ msg), w')
          ∧ chat_messages w' = chat_messages w)
  ∧ (∀ file session_id ct,
      UploadFile.content_type file = Some ct →
      Str.startswith "image/" ct = true →
      fault (candlestick_analyses w) = Some msg →
      ∃ w', post_analyze_candlestick env file session_id w
            = (HttpError 500 ("Analysis failed: " +:+ msg), w')
          ∧ candlestick_analyses w' = candlestick_analyses w).
Proof.
  split.
  - intros request r Hk Hp Hf. unfold post_chat, serve, chat_with_ai, try_except.
    unfold bind at 1. rewrite get_llm_chat_configured by done.
    change (new_LlmChat ?c w) with
      (Returns (length (chat_objects w)), snd (new_LlmChat c w)).
    cbv beta iota. unfold bind at 1. rewrite send_message_new, Hp.
    run_handler. simpl. rewrite Hf. simpl.
    eexists. split; reflexivity.
  - intros file session_id ct Hct Himg Hf. unfold post_analyze_candlestick, serve.
    destruct (analyze_chart_store_down env file (default "default" session_id)
                ct w msg Hct Himg Hf) as (w' & -> & Hw).
    exists w'. by split.
Qed.

Lemma store_write_failure_is_an_error_witness :
  (∃ w', post_chat Scenario.env_ok Scenario.hello Scenario.store_down
         = (HttpError 500 "Chat service error: store unreachable", w')
       ∧ chat_messages w' = chat_messages Scenario.store_down)
  ∧ (∃ w', post_analyze_candlestick Scenario.env_ok Scenario.png (Some "s1")
             Scenario.store_down
           = (HttpError 500 "Analysis failed: store unreachable", w')
         ∧ candlestick_analyses w' = candlestick_analyses Scenario.store_down).
Proof.
  destruct (store_write_failure_is_an_error Scenario.env_ok Scenario.store_down
              "store unreachable") as [Hchat Hscan].
  split.
  - exact (Hchat Scenario.hello "Re: hi" eq_refl eq_refl eq_refl).
  - exact (Hscan Scenario.png (Some "s1") "image/png" eq_refl eq_refl eq_refl).
Defined.

(** C3 as stated fails: the provider answered, the store write failed, and
    the caller gets status 500 instead of the answer. *)
Lemma store_write_failure_counterexample :
  provider Scenario.env_ok (configured_chat Scenario.env_ok " S1 " None)
    (UserMessage.make "hi" []) = Returns "Re: hi"
  ∧ fault (chat_messages Scenario.store_down) = Some "store unreachable"
  ∧ fst (post_chat Scenario.env_ok Scenario.hello Scenario.store_down)
    = HttpError 500 "Chat service error: store unreachable"
  ∧ fst (post_chat Scenario.env_ok Scenario.hello Scenario.store_down)
    ≠ Http200 (ChatResponse.make "Re: hi" " S1 ").
Proof.
  repeat split; try reflexivity. discriminate.
Qed.

(** C1, at a failing input: the provider times out on an image upload, and
    the endpoint answers 200 with the error message as the analysis and
    persists a record holding it; the chat endpoint, under the same provider
    failure, answers 500 and persists nothing. *)
Lemma analysis_provider_failure_is_persisted :
  let run := post_analyze_candlestick Scenario.env_down Scenario.png (Some "s1")
               Scenario.empty_world in
  let chat := post_chat Scenario.env_down Scenario.hello Scenario.empty_world in
  fst run
  = Http200 (AnalysisResponse.make "Error analyzing image: provider timeout"
               [] ∅ "s1" "chart.png")
  ∧ docs (candlestick_analyses (snd run))
    = [CandlestickAnalysis.make "id-0" "s1" "chart.png"
         "Error analyzing image: provider timeout" [] ∅ ∅
         "2025-01-01T00:00:01+00:00"]
  ∧ fst chat = HttpError 500 "Chat service error: provider timeout"
  ∧ docs (chat_messages (snd chat)) = [].
Proof.
  repeat split; reflexivity.
Qed.

(** C2, at a failing input: a text/plain upload is answered with status
    500, not 400; no chat object is constructed and no record is
    persisted. *)
Lemma non_image_upload_is_server_error :
  let run := post_analyze_candlestick Scenario.env_ok Scenario.txt (Some "s1")
               Scenario.empty_world in
  fst run = HttpError 500 "Analysis failed: 400: File must be an image"
  ∧ chat_objects (snd run) = []
  ∧ docs (candlestick_analyses (snd run)) = [].
Proof.
  repeat split; reflexivity.
Qed.





(** * Further properties of the handlers *)

(** ** Worked inputs of the helpers *)

Example isoformat_whole_second :
  isoformat (utc 2025 1 2 3 4 5 0) = "2025-01-02T03:04:05+00:00".
Proof. reflexivity. Qed.

Example isoformat_fraction :
  isoformat (utc 2025 1 2 3 4 5 1234) = "2025-01-02T03:04:05.001234+00:00".
Proof. reflexivity. Qed.

Example isoformat_negative_offset :
  isoformat (mk_datetime 999 12 31 23 59 59 999999 (Some (-330)%Z))
  = "0999-12-31T23:59:59.999999-05:30".
Proof. reflexivity. Qed.

Example isoformat_naive :
  isoformat (mk_datetime 2024 2 29 0 0 0 0 None) = "2024-02-29T00:00:00".
Proof. reflexivity. Qed.

Example prepare_for_mongo_nested :
  prepare_for_mongo
    (VDict [("at", VDatetime (utc 2025 1 2 3 4 5 0));
            ("in", VDict [("at", VDatetime (utc 2025 1 2 3 4 5 0))]);
            ("l", VList [VDatetime (utc 2025 1 2 3 4 5 0);
                         VDict [("at", VDatetime (utc 2025 1 2 3 4 5 0))];
                         VList [VDict [("at", VDatetime (utc 2025 1 2 3 4 5 0))]]])])
  = VDict [("at", VStr "2025-01-02T03:04:05+00:00");
           ("in", VDict [("at", VStr "2025-01-02T03:04:05+00:00")]);
           ("l", VList [VDatetime (utc 2025 1 2 3 4 5 0);
                        VDict [("at", VStr "2025-01-02T03:04:05+00:00")];
                        VList [VDict [("at", VDatetime (utc 2025 1 2 3 4 5 0))]]])].
Proof. reflexivity. Qed.

Example prepare_from_mongo_nested :
  prepare_from_mongo str_of_id
    (VList [VDict [("_id", VObjectId "65a1"); ("n", VDict [("_id", VInt 5)]);
                   ("l", VList [VList [VDict [("_id", VNone)]]])]])
  = VList [VDict [("_id", VStr "65a1"); ("n", VDict [("_id", VStr "5")]);
                  ("l", VList [VList [VDict [("_id", VStr "None")]]])]].
Proof. reflexivity. Qed.

Example split_pieces :
  split ","%char "http://a.example, http://b.example,,x"
  = ["http://a.example"; " http://b.example"; ""; "x"]
  /\ split ","%char "" = [""]
  /\ allow_origins (Some "") = [""].
Proof. repeat split; reflexivity. Qed.

(** ** One run of each handler, case by case *)

Lemma image_run_no_key env image_base64 session_id w :
  truthy (EMERGENT_LLM_KEY env) = false ->
  analyze_candlestick_image env image_base64 session_id w
  = (Returns "Error analyzing image: 500: LLM API key not configured",
     logged "Error in candlestick analysis: 500: LLM API key not configured" w).
Proof.
  intros Hk. unfold analyze_candlestick_image, try_except, bind at 1.
  unfold get_llm_chat, raise. rewrite Hk. reflexivity.
Qed.

Lemma image_run_key env image_base64 session_id w :
  truthy (EMERGENT_LLM_KEY env) = true ->
  let c := configured_chat env session_id (Some analysis_system_message) in
  let w1 := snd (new_LlmChat c w) in
  analyze_candlestick_image env image_base64 session_id w
  = match provider env c
            (UserMessage.make analysis_prompt [ImageContent.make image_base64])
    with
    | Returns response => (Returns response, w1)
    | Raises e =>
        (Returns ("Error analyzing image: " +:+ str e),
         logged ("Error in candlestick analysis: " +:+ str e) w1)
    end.
Proof.
  intros Hk c w1. unfold analyze_candlestick_image, try_except. unfold bind at 1.
  rewrite get_llm_chat_configured by done.
  change (new_LlmChat ?c w) with
    (Returns (length (chat_objects w)), snd (new_LlmChat c w)).
  cbv beta iota. unfold bind at 1. rewrite send_message_new.
  fold c. fold w1. by destruct (provider env c _).
Qed.

Lemma chat_run_no_key env request w :
  truthy (EMERGENT_LLM_KEY env) = false ->
  post_chat env request w
  = (HttpError 500 "Chat service error: 500: LLM API key not configured",
     logged "Chat error: 500: LLM API key not configured" w).
Proof.
  intros Hk. unfold post_chat, serve, chat_with_ai, try_except, bind at 1.
  unfold get_llm_chat, raise. rewrite Hk. reflexivity.
Qed.

Lemma chat_run_key env request w :
  truthy (EMERGENT_LLM_KEY env) = true ->
  let session_id := ChatRequest.session_id request in
  let message := ChatRequest.message request in
  let c := configured_chat env session_id None in
  let w1 := snd (new_LlmChat c w) in
  let w2 := snd (draw (utcnow env) (snd (draw (uuid4 env) w1))) in
  post_chat env request w
  = match provider env c (UserMessage.make message []) with
    | Raises e =>
        (HttpError 500 ("Chat service error: " +:+ str e),
         logged ("Chat error: " +:+ str e) w1)
    | Returns r =>
        match fault (chat_messages w) with
        | Some msg =>
            (HttpError 500 ("Chat service error: " +:+ msg),
             logged ("Chat error: " +:+ msg) w2)
        | None =>
            (Http200 (ChatResponse.make r session_id),
             snd (insert_one_chat
                    (ChatMessage.make (uuid4 env (draws w)) session_id message r
                       (utcnow env (S (draws w)))) w2))
        end
    end.
Proof.
  intros Hk session_id message c w1 w2.
  unfold post_chat, serve, chat_with_ai, try_except. unfold bind at 1.
  rewrite get_llm_chat_configured by done.
  change (new_LlmChat ?c w) with
    (Returns (length (chat_objects w)), snd (new_LlmChat c w)).
  cbv beta iota. unfold bind at 1. rewrite send_message_new.
  fold session_id message c w1.
  destruct (provider env c _) as [r|e]; [| reflexivity].
  subst w2 w1. run_handler. simpl.
  by destruct (fault (chat_messages w)).
Qed.

Lemma analyze_run_image env file session_id ct w :
  UploadFile.content_type file = Some ct ->
  Str.startswith "image/" ct = true ->
  let run := analyze_candlestick_image env (b64encode (UploadFile.content file))
               (default "default" session_id) w in
  let text := match fst run with Returns t => t | Raises _ => "" end in
  let w2 := snd (draw (utcnow env) (snd (draw (uuid4 env) (snd run)))) in
  post_analyze_candlestick env file session_id w
  = match fault (candlestick_analyses w) with
    | Some msg =>
        (HttpError 500 ("Analysis failed: " +:+ msg),
         logged ("Candlestick analysis error: " +:+ msg) w2)
    | None =>
        (Http200
           (AnalysisResponse.make text (detect_patterns text)
              (extract_recommendations text) (default "default" session_id)
              (UploadFile.filename file)),
         snd (insert_one_analysis
                (CandlestickAnalysis.make (uuid4 env (draws w))
                   (default "default" session_id) (UploadFile.filename file) text
                   (detect_patterns text) ∅ (extract_recommendations text)
                   (utcnow env (S (draws w)))) w2))
    end.
Proof.
  intros Hct Himg run text w2.
  destruct (analyze_candlestick_image_returns env
              (b64encode (UploadFile.content file))
              (default "default" session_id) w)
    as (t & w1 & Hrun & _ & Ha & Hd & _).
  unfold post_analyze_candlestick, serve.
  rewrite (analyze_candlestick_chart_image _ _ _ _ _ _ _ Hct Himg Hrun).
  subst w2 text run. rewrite Hrun. simpl fst. simpl snd.
  run_handler. simpl. rewrite Ha, Hd.
  by destruct (fault (candlestick_analyses w)).
Qed.

Lemma analyze_run_no_type env file session_id w :
  UploadFile.content_type file = None ->
  post_analyze_candlestick env file session_id w
  = (HttpError 500
       "Analysis failed: 'NoneType' object has no attribute 'startswith'",
     logged
       "Candlestick analysis error: 'NoneType' object has no attribute 'startswith'"
       w).
Proof.
  intros Hct. run_handler. by rewrite Hct.
Qed.

Lemma analyze_run_not_image env file session_id ct w :
  UploadFile.content_type file = Some ct ->
  Str.startswith "image/" ct = false ->
  post_analyze_candlestick env file session_id w
  = (HttpError 500 "Analysis failed: 400: File must be an image",
     logged "Candlestick analysis error: 400: File must be an image" w).
Proof.
  intros Hct Himg. run_handler. by rewrite Hct, Himg.
Qed.

(** ** What a turn answers and what it leaves in the store *)

(** X1. The image helper never raises: it returns the provider's text when
    the call succeeds, the text of an error message when the provider call
    or the gateway fails, and it leaves both collections as they were. *)
Theorem image_analysis_never_raises env (image_base64 session_id : string)
    (w : World) :
  ∃ text w',
    analyze_candlestick_image env image_base64 session_id w = (Returns text, w')
    ∧ text =
        (if truthy (EMERGENT_LLM_KEY env)
         then match provider env
                      (configured_chat env session_id (Some analysis_system_message))
                      (UserMessage.make analysis_prompt
                         [ImageContent.make image_base64])
              with
              | Returns response => response
              | Raises e => "Error analyzing image: " +:+ str e
              end
         else "Error analyzing image: 500: LLM API key not configured")
    ∧ chat_messages w' = chat_messages w
    ∧ candlestick_analyses w' = candlestick_analyses w
    ∧ draws w' = draws w.
Proof.
  destruct (truthy (EMERGENT_LLM_KEY env)) eqn:Hk.
  - rewrite image_run_key by done.
    destruct (provider env _ _) as [r|e]; eexists _, _; by repeat split.
  - rewrite image_run_no_key by done. eexists _, _. by repeat split.
Qed.

(** X2. The chat endpoint answers 200 exactly when the credential is set,
    the provider returns and the store accepts the write; every other
    answer has status 500, with the provider's or the gateway's message in
    the detail, and without a credential no chat object is constructed. *)
Theorem chat_answers env (request : ChatRequest.t) (w : World) :
  let c := configured_chat env (ChatRequest.session_id request) None in
  let sent := UserMessage.make (ChatRequest.message request) [] in
  let out := post_chat env request w in
  ((∃ body, fst out = Http200 body)
   ↔ truthy (EMERGENT_LLM_KEY env) = true
     ∧ (∃ r, provider env c sent = Returns r)
     ∧ fault (chat_messages w) = None)
  ∧ (∀ status detail, fst out = HttpError status detail → status = 500)
  ∧ (truthy (EMERGENT_LLM_KEY env) = false →
     fst out = HttpError 500 "Chat service error: 500: LLM API key not configured"
     ∧ chat_objects (snd out) = chat_objects w)
  ∧ (∀ e, truthy (EMERGENT_LLM_KEY env) = true →
          provider env c sent = Raises e →
          fst out = HttpError 500 ("Chat service error: " +:+ str e)).
Proof.
  intros c sent out. subst out.
  assert (Hiff : ∀ P Q : Prop, (P → Q) → (Q → P) → (P ↔ Q)) by tauto.
  destruct (truthy (EMERGENT_LLM_KEY env)) eqn:Hk.
  - rewrite chat_run_key by done. fold c sent.
    destruct (provider env c sent) as [r|e];
      [destruct (fault (chat_messages w)) as [msg|] |]; simpl;
      (split; [apply Hiff | split; [| split]]).
    all: try (intros [body Hb]; discriminate Hb).
    all: try (intros (_ & [r' Hr] & Hf); discriminate).
    all: try (intros status detail [= <- _]; reflexivity).
    all: try (intros status detail H; discriminate H).
    all: try (intros e' _ H; by injection H as ->).
    all: try done.
    all: eauto.
  - rewrite chat_run_no_key by done. simpl.
    split; [apply Hiff | split; [| split]].
    all: try (intros [body Hb]; discriminate Hb).
    all: try (intros (H & _); discriminate H).
    all: try (intros status detail [= <- _]; reflexivity).
    all: try done.
Qed.

Lemma chat_answers_witness :
  fst (post_chat Scenario.env_down Scenario.hello Scenario.empty_world)
  = HttpError 500 "Chat service error: provider timeout".
Proof.
  pose proof (chat_answers Scenario.env_down Scenario.hello Scenario.empty_world)
    as H.
  cbv zeta in H. destruct H as (_ & _ & _ & H).
  apply (H (Error "provider timeout")); reflexivity.
Defined.

(** X3. A chat turn never touches the analysis collection; it appends
    exactly one record, holding the request's session id and message and
    the response it returns, when it answers 200, and leaves the chat
    collection as it was when it answers with an error. *)
Theorem chat_store_effect env (request : ChatRequest.t) (w : World) :
  let out := post_chat env request w in
  candlestick_analyses (snd out) = candlestick_analyses w
  ∧ (∀ body, fst out = Http200 body →
       ∃ doc, docs (chat_messages (snd out)) = docs (chat_messages w) ++ [doc]
         ∧ ChatMessage.session_id doc = ChatRequest.session_id request
         ∧ ChatMessage.message doc = ChatRequest.message request
         ∧ ChatMessage.response doc = ChatResponse.response body
         ∧ ChatMessage.id doc = uuid4 env (draws w)
         ∧ ChatMessage.timestamp doc = utcnow env (S (draws w)))
  ∧ (∀ status detail, fst out = HttpError status detail →
       chat_messages (snd out) = chat_messages w).
Proof.
  intros out. subst out.
  destruct (truthy (EMERGENT_LLM_KEY env)) eqn:Hk.
  - rewrite chat_run_key by done.
    destruct (provider env _ _) as [r|e];
      [destruct (fault (chat_messages w)) as [msg|] eqn:Hf |];
      unfold insert_one_chat; simpl; rewrite ?Hf; simpl;
      (split; [done | split]); try done.
    intros body [= <-]. eexists. by repeat split.
  - rewrite chat_run_no_key by done. simpl. by repeat split.
Qed.

Lemma chat_store_effect_witness :
  ∃ doc,
    docs (chat_messages (snd (post_chat Scenario.env_ok Scenario.hello
                                Scenario.empty_world)))
    = docs (chat_messages Scenario.empty_world) ++ [doc]
    ∧ ChatMessage.session_id doc = " S1 "
    ∧ ChatMessage.message doc = "hi"
    ∧ ChatMessage.response doc = "Re: hi"
    ∧ ChatMessage.id doc = "id-0"
    ∧ ChatMessage.timestamp doc = "2025-01-01T00:00:01+00:00".
Proof.
  pose proof (chat_store_effect Scenario.env_ok Scenario.hello
                Scenario.empty_world) as H.
  cbv zeta in H. destruct H as (_ & Hok & _).
  exact (Hok (ChatResponse.make "Re: hi" " S1 ") eq_refl).
Defined.

(** X4. The analysis endpoint answers 200 exactly when the upload declares
    a content type starting with "image/" and the store accepts the write,
    whatever the credential and the provider do; every other answer has
    status 500, and an upload that is rejected for its content type
    constructs no chat object and draws no identifier. *)
Theorem analysis_answers env (file : UploadFile.t) (session_id : option string)
    (w : World) :
  let out := post_analyze_candlestick env file session_id w in
  let is_image :=
    ∃ ct, UploadFile.content_type file = Some ct
          ∧ Str.startswith "image/" ct = true in
  ((∃ body, fst out = Http200 body)
   ↔ is_image ∧ fault (candlestick_analyses w) = None)
  ∧ (∀ status detail, fst out = HttpError status detail → status = 500)
  ∧ (¬ is_image →
     chat_objects (snd out) = chat_objects w ∧ draws (snd out) = draws w)
  ∧ (UploadFile.content_type file = None →
     fst out = HttpError 500
       "Analysis failed: 'NoneType' object has no attribute 'startswith'").
Proof.
  intros out is_image. subst out is_image.
  assert (Hiff : ∀ P Q : Prop, (P → Q) → (Q → P) → (P ↔ Q)) by tauto.
  destruct (UploadFile.content_type file) as [ct|] eqn:Hct.
  - destruct (Str.startswith "image/" ct) eqn:Himg.
    + rewrite (analyze_run_image _ _ _ _ _ Hct Himg).
      destruct (fault (candlestick_analyses w)) as [msg|]; cbn [fst snd];
        (split; [apply Hiff | split; [| split]]).
      all: try (intros [body Hb]; discriminate Hb).
      all: try (intros (_ & Hf); discriminate Hf).
      all: try (intros status detail [= <- _]; reflexivity).
      all: try (intros status detail H; discriminate H).
      all: try (intros H; exfalso; apply H; by exists ct).
      all: try done.
      all: eauto.
    + rewrite (analyze_run_not_image _ _ _ _ _ Hct Himg).
      unfold logged, logging_error. cbn [fst snd chat_objects draws].
      split; [apply Hiff | split; [| split]].
      all: try (intros [body Hb]; discriminate Hb).
      all: try (intros ((ct' & [= <-] & Hs) & _); congruence).
      all: try (intros status detail [= <- _]; reflexivity).
      all: try done.
  - rewrite (analyze_run_no_type _ _ _ _ Hct).
    unfold logged, logging_error. cbn [fst snd chat_objects draws].
    split; [apply Hiff | split; [| split]].
    all: try (intros [body Hb]; discriminate Hb).
    all: try (intros ((ct' & Hc & _) & _); discriminate Hc).
    all: try (intros status detail [= <- _]; reflexivity).
    all: try done.
Qed.

Lemma analysis_answers_witness :
  fst (post_analyze_candlestick Scenario.env_ok
         (UploadFile.make "chart" None []) (Some "s1") Scenario.empty_world)
  = HttpError 500
      "Analysis failed: 'NoneType' object has no attribute 'startswith'".
Proof.
  pose proof (analysis_answers Scenario.env_ok (UploadFile.make "chart" None [])
                (Some "s1") Scenario.empty_world) as H.
  cbv zeta in H. destruct H as (_ & _ & _ & H).
  apply H. reflexivity.
Defined.



Lemma chat_history_value session_id w :
  fst (get_chat_history session_id w)
  = Returns
      (ChatHistory.make
         (match fault (chat_messages w) with
          | Some _ => []
          | None =>
              take 100
                (sort ChatMessage.timestamp 1
                   (find ChatMessage.session_id session_id
                      (docs (chat_messages w))))
          end) session_id).
Proof. run_handler. by destruct (fault (chat_messages w)). Qed.

Lemma analysis_history_value session_id w :
  fst (get_analysis_history session_id w)
  = Returns
      (AnalysisHistory.make
         (match fault (candlestick_analyses w) with
          | Some _ => []
          | None =>
              take 50
                (sort CandlestickAnalysis.timestamp (-1)
                   (find CandlestickAnalysis.session_id session_id
                      (docs (candlestick_analyses w))))
          end) session_id).
Proof. run_handler. by destruct (fault (candlestick_analyses w)). Qed.

(** The answer of a history route, from what its handler returned. *)
Lemma chat_route_answer session_id w h :
  fst (get_chat_history session_id w) = Returns h ->
  fst (get_chat_history_route session_id w)
  = match ChatHistory.chats h with
    | [] => Http200 h
    | _ => HttpError 500 "Internal Server Error"
    end.
Proof.
  unfold get_chat_history_route, serve_encoded.
  destruct (get_chat_history session_id w) as [o w']. cbn [fst]. intros ->.
  rewrite chat_history_jsonable. by destruct (ChatHistory.chats h).
Qed.

Lemma analysis_route_answer session_id w h :
  fst (get_analysis_history session_id w) = Returns h ->
  fst (get_analysis_history_route session_id w)
  = match AnalysisHistory.analyses h with
    | [] => Http200 h
    | _ => HttpError 500 "Internal Server Error"
    end.
Proof.
  unfold get_analysis_history_route, serve_encoded.
  destruct (get_analysis_history session_id w) as [o w']. cbn [fst]. intros ->.
  rewrite analysis_history_jsonable. by destruct (AnalysisHistory.analyses h).
Qed.

(** Two reads whose handlers return the same get the same answer. *)
Lemma chat_route_same session_id w1 w2 :
  fst (get_chat_history session_id w1) = fst (get_chat_history session_id w2) ->
  fst (get_chat_history_route session_id w1)
  = fst (get_chat_history_route session_id w2).
Proof.
  unfold get_chat_history_route, serve_encoded.
  destruct (get_chat_history session_id w1) as [o1 w1'].
  destruct (get_chat_history session_id w2) as [o2 w2']. simpl. by intros ->.
Qed.

Lemma analysis_route_same session_id w1 w2 :
  fst (get_analysis_history session_id w1)
  = fst (get_analysis_history session_id w2) ->
  fst (get_analysis_history_route session_id w1)
  = fst (get_analysis_history_route session_id w2).
Proof.
  unfold get_analysis_history_route, serve_encoded.
  destruct (get_analysis_history session_id w1) as [o1 w1'].
  destruct (get_analysis_history session_id w2) as [o2 w2']. simpl. by intros ->.
Qed.

Lemma route_state_chat session_id w :
  snd (get_chat_history_route session_id w) = snd (get_chat_history session_id w).
Proof.
  unfold get_chat_history_route, serve_encoded.
  by destruct (get_chat_history session_id w).
Qed.

Lemma route_state_analysis session_id w :
  snd (get_analysis_history_route session_id w)
  = snd (get_analysis_history session_id w).
Proof.
  unfold get_analysis_history_route, serve_encoded.
  by destruct (get_analysis_history session_id w).
Qed.

Section NothingRead.
Context {A : Type}.
Variable session_of : A -> string.
Variable timestamp_of : A -> string.

(** The capped, sorted selection is empty exactly when the session holds
    no record. *)
Lemma read_nothing direction n session_id l :
  (0 < n)%nat ->
  take n (sort timestamp_of direction (find session_of session_id l)) = []
  <-> forall d, d ∈ l -> session_of d ≠ session_id.
Proof.
  intros Hn. split.
  - intros Hnil d Hd Hs.
    assert (Hin : d ∈ find session_of session_id l) by (by apply find_elem).
    rewrite <- (sort_perm timestamp_of direction) in Hin.
    destruct (sort timestamp_of direction (find session_of session_id l))
      as [|x r]; [by apply elem_of_nil in Hin |].
    destruct n; [lia | discriminate Hnil].
  - intros Hnone. rewrite (find_none session_of session_id l Hnone).
    simpl. by destruct n.
Qed.
End NothingRead.

(** X6. A history read changes nothing but the log: both collections, the
    chat objects and the drawn identifiers stay as they were. It answers
    200, with an empty list and the requested session id, exactly when the
    store fails or the session holds no record; when the read yields a
    record it answers 500, since the documents go out with the ObjectId of
    the store. *)
Theorem history_reads_change_nothing (session_id : string) (w : World) :
  let chats := get_chat_history_route session_id w in
  let scans := get_analysis_history_route session_id w in
  (fst chats = Http200 (ChatHistory.make [] session_id)
   ∨ fst chats = HttpError 500 "Internal Server Error")
  ∧ (fst chats = Http200 (ChatHistory.make [] session_id)
     ↔ fault (chat_messages w) ≠ None
       ∨ ∀ d, d ∈ docs (chat_messages w) → ChatMessage.session_id d ≠ session_id)
  ∧ (fst scans = Http200 (AnalysisHistory.make [] session_id)
     ∨ fst scans = HttpError 500 "Internal Server Error")
  ∧ (fst scans = Http200 (AnalysisHistory.make [] session_id)
     ↔ fault (candlestick_analyses w) ≠ None
       ∨ ∀ d, d ∈ docs (candlestick_analyses w) →
              CandlestickAnalysis.session_id d ≠ session_id)
  ∧ chat_messages (snd chats) = chat_messages w
  ∧ candlestick_analyses (snd chats) = candlestick_analyses w
  ∧ chat_objects (snd chats) = chat_objects w
  ∧ draws (snd chats) = draws w
  ∧ chat_messages (snd scans) = chat_messages w
  ∧ candlestick_analyses (snd scans) = candlestick_analyses w
  ∧ chat_objects (snd scans) = chat_objects w
  ∧ draws (snd scans) = draws w.
Proof.
  intros chats scans. subst chats scans.
  rewrite route_state_chat, route_state_analysis.
  rewrite (chat_route_answer _ _ _ (chat_history_value session_id w)).
  rewrite (analysis_route_answer _ _ _ (analysis_history_value session_id w)).
  cbn [ChatHistory.chats AnalysisHistory.analyses].
  pose proof (read_nothing ChatMessage.session_id ChatMessage.timestamp 1 100
                session_id (docs (chat_messages w)) ltac:(lia)) as Hc.
  pose proof (read_nothing CandlestickAnalysis.session_id
                CandlestickAnalysis.timestamp (-1) 50
                session_id (docs (candlestick_analyses w)) ltac:(lia)) as Ha.
  repeat split_and.
  - destruct (fault (chat_messages w)); [by left |].
    destruct (take 100 _); [by left | by right].
  - destruct (fault (chat_messages w)) as [msg|].
    + split; [by left | done].
    + destruct (take 100 _) as [|x r].
      * split; [intros _; right; by apply Hc | done].
      * split; [done |]. intros [Hf | Hnone]; [done |].
        by apply Hc in Hnone.
  - destruct (fault (candlestick_analyses w)); [by left |].
    destruct (take 50 _); [by left | by right].
  - destruct (fault (candlestick_analyses w)) as [msg|].
    + split; [by left | done].
    + destruct (take 50 _) as [|x r].
      * split; [intros _; right; by apply Ha | done].
      * split; [done |]. intros [Hf | Hnone]; [done |].
        by apply Ha in Hnone.
  - run_handler. by destruct (fault (chat_messages w)).
  - run_handler. by destruct (fault (chat_messages w)).
  - run_handler. by destruct (fault (chat_messages w)).
  - run_handler. by destruct (fault (chat_messages w)).
  - run_handler. by destruct (fault (candlestick_analyses w)).
  - run_handler. by destruct (fault (candlestick_analyses w)).
  - run_handler. by destruct (fault (candlestick_analyses w)).
  - run_handler. by destruct (fault (candlestick_analyses w)).
Qed.

Lemma history_reads_change_nothing_witness :
  fst (get_chat_history_route "nobody" Scenario.with_history)
  = Http200 (ChatHistory.make [] "nobody").
Proof.
  pose proof (history_reads_change_nothing "nobody" Scenario.with_history) as H.
  cbv zeta in H. destruct H as (_ & H & _).
  apply H. right. intros d Hd. simpl in Hd.
  repeat (apply elem_of_cons in Hd as [->|Hd]); try done.
  by apply elem_of_nil in Hd.
Defined.

(** ** Turns followed by history reads *)

Section CursorSteps.
Context {A : Type}.
Variable session_of : A -> string.
Variable timestamp_of : A -> string.

Lemma find_snoc_same session_id l d :
  session_of d = session_id ->
  find session_of session_id (l ++ [d]) = find session_of session_id l ++ [d].
Proof.
  intros H. unfold find. rewrite List.filter_app. simpl.
  by rewrite (proj2 (String.eqb_eq _ _) H).
Qed.

Lemma find_snoc_other session_id l d :
  session_of d ≠ session_id ->
  find session_of session_id (l ++ [d]) = find session_of session_id l.
Proof.
  intros H. unfold find. rewrite List.filter_app. simpl.
  rewrite (proj2 (String.eqb_neq _ _) H). apply app_nil_r.
Qed.

Lemma place_snoc direction x s d :
  before timestamp_of direction x d = true ->
  place timestamp_of direction x (s ++ [d])
  = place timestamp_of direction x s ++ [d].
Proof.
  intros H. induction s as [|y s IH]; simpl.
  - by rewrite H.
  - destruct (before timestamp_of direction x y); [done |]. by rewrite IH.
Qed.

(** A record that may stand after every other one sorts last. *)
Lemma sort_snoc_last direction l d :
  (forall x, x ∈ l -> before timestamp_of direction x d = true) ->
  sort timestamp_of direction (l ++ [d]) = sort timestamp_of direction l ++ [d].
Proof.
  induction l as [|x l IH]; intros H; [done |].
  change (sort timestamp_of direction ((x :: l) ++ [d]))
    with (place timestamp_of direction x (sort timestamp_of direction (l ++ [d]))).
  rewrite IH by (intros y Hy; apply H; by right).
  apply place_snoc, H. by left.
Qed.

Lemma place_after_head direction x s d :
  before timestamp_of direction x d = false ->
  place timestamp_of direction x (d :: s)
  = d :: place timestamp_of direction x s.
Proof. intros H. simpl. by rewrite H. Qed.

(** A record that no other one may stand before sorts first. *)
Lemma sort_snoc_first direction l d :
  (forall x, x ∈ l -> before timestamp_of direction x d = false) ->
  sort timestamp_of direction (l ++ [d]) = d :: sort timestamp_of direction l.
Proof.
  induction l as [|x l IH]; intros H; [done |].
  change (sort timestamp_of direction ((x :: l) ++ [d]))
    with (place timestamp_of direction x (sort timestamp_of direction (l ++ [d]))).
  rewrite IH by (intros y Hy; apply H; by right).
  apply place_after_head, H. by left.
Qed.

Lemma sort_length direction l :
  length (sort timestamp_of direction l) = length l.
Proof. by rewrite (sort_perm timestamp_of direction l). Qed.
End CursorSteps.

(** The store after a chat turn: as before, or with one more record and
    the store reachable. *)
Lemma chat_turn_store env request w :
  let out := post_chat env request w in
  candlestick_analyses (snd out) = candlestick_analyses w
  ∧ ((∃ status detail, fst out = HttpError status detail)
     ∧ chat_messages (snd out) = chat_messages w
     ∨ (∃ r, fst out
             = Http200 (ChatResponse.make r (ChatRequest.session_id request))
           ∧ fault (chat_messages w) = None
           ∧ chat_messages (snd out)
             = mk_collection
                 (docs (chat_messages w) ++
                  [ChatMessage.make (uuid4 env (draws w))
                     (ChatRequest.session_id request)
                     (ChatRequest.message request) r
                     (utcnow env (S (draws w)))]) None)).
Proof.
  intros out. subst out.
  destruct (truthy (EMERGENT_LLM_KEY env)) eqn:Hk.
  - rewrite chat_run_key by done.
    destruct (provider env _ _) as [r|e];
      [destruct (fault (chat_messages w)) as [msg|] eqn:Hf |];
      unfold insert_one_chat; simpl; rewrite ?Hf; simpl; (split; [done |]);
      eauto 8.
  - rewrite chat_run_no_key by done. simpl. eauto 8.
Qed.

(** The store after an analysis turn. *)
Lemma analysis_turn_store env file session_id w :
  let out := post_analyze_candlestick env file session_id w in
  chat_messages (snd out) = chat_messages w
  ∧ ((∃ status detail, fst out = HttpError status detail)
     ∧ candlestick_analyses (snd out) = candlestick_analyses w
     ∨ (∃ text, fst out
             = Http200
                 (AnalysisResponse.make text (detect_patterns text)
                    (extract_recommendations text)
                    (default "default" session_id) (UploadFile.filename file))
           ∧ fault (candlestick_analyses w) = None
           ∧ candlestick_analyses (snd out)
             = mk_collection
                 (docs (candlestick_analyses w) ++
                  [CandlestickAnalysis.make (uuid4 env (draws w))
                     (default "default" session_id) (UploadFile.filename file)
                     text (detect_patterns text) ∅
                     (extract_recommendations text)
                     (utcnow env (S (draws w)))]) None)).
Proof.
  intros out. subst out.
  destruct (UploadFile.content_type file) as [ct|] eqn:Hct.
  - destruct (Str.startswith "image/" ct) eqn:Himg.
    + rewrite (analyze_run_image _ _ _ _ _ Hct Himg).
      destruct (analyze_candlestick_image_returns env
                  (b64encode (UploadFile.content file))
                  (default "default" session_id) w)
        as (t & w1 & Hrun & Hc & Ha & Hd & _).
      rewrite Hrun.
      destruct (fault (candlestick_analyses w)) as [msg|] eqn:Hf;
        unfold insert_one_analysis; simpl; rewrite ?Ha, ?Hf; simpl;
        (split; [done |]); eauto 8.
    + rewrite (analyze_run_not_image _ _ _ _ _ Hct Himg). split; [done |].
      left. split; [eauto | done].
  - rewrite (analyze_run_no_type _ _ _ _ Hct). split; [done |].
    left. split; [eauto | done].
Qed.

(** X7. Read your write: after a chat turn answered with 200 in a session
    that held fewer than 100 records, the chat-history handler returns, for
    that session, the new record, with the request's message and the
    returned response, next to the records the session held before. The
    route then answers 500: the documents returned carry the ObjectId of
    the store. *)
Theorem chat_turn_is_in_history env (request : ChatRequest.t) (w : World)
    (body : ChatResponse.t) :
  let session_id := ChatRequest.session_id request in
  let before := find ChatMessage.session_id session_id (docs (chat_messages w)) in
  fst (post_chat env request w) = Http200 body →
  (length before < 100)%nat →
  ∃ h doc,
    fst (get_chat_history session_id (snd (post_chat env request w)))
    = Returns h
    ∧ ChatHistory.session_id h = session_id
    ∧ doc ∈ ChatHistory.chats h
    ∧ ChatMessage.message doc = ChatRequest.message request
    ∧ ChatMessage.response doc = ChatResponse.response body
    ∧ ChatHistory.chats h ≡ₚ before ++ [doc]
    ∧ length (ChatHistory.chats h) = S (length before)
    ∧ fst (get_chat_history_route session_id (snd (post_chat env request w)))
      = HttpError 500 "Internal Server Error".
Proof.
  intros session_id before Hok Hlen.
  destruct (chat_turn_store env request w)
    as (_ & [([s [d Herr]] & _) | (r & Hresp & Hf & Hstore)]).
  { rewrite Herr in Hok. discriminate Hok. }
  rewrite Hresp in Hok. injection Hok as <-.
  pose proof (chat_history_value session_id (snd (post_chat env request w)))
    as Hread.
  rewrite (chat_route_answer _ _ _ Hread).
  rewrite Hread, Hstore. simpl fault. simpl docs.
  rewrite find_snoc_same by done. fold session_id before.
  eexists _, (ChatMessage.make (uuid4 env (draws w)) session_id
                (ChatRequest.message request) r (utcnow env (S (draws w)))).
  split; [reflexivity |]. cbn [ChatHistory.chats ChatHistory.session_id].
  assert (Hall : ∀ l : list ChatMessage.t,
            (length l ≤ 100)%nat → take 100 (sort ChatMessage.timestamp 1 l)
                                   = sort ChatMessage.timestamp 1 l).
  { intros l Hl. apply take_ge. by rewrite sort_length. }
  rewrite Hall by (rewrite length_app; simpl; lia).
  split; [done |].
  split; [| split; [done | split; [done | split; [| split]]]].
  - rewrite (sort_perm ChatMessage.timestamp 1). set_solver.
  - apply sort_perm.
  - rewrite sort_length, length_app. simpl. lia.
  - match goal with
    | |- match ?l with _ => _ end = _ =>
        assert (Hl : length l = S (length before))
          by (rewrite sort_length, length_app; simpl; lia);
        destruct l; [discriminate Hl | reflexivity]
    end.
Qed.

Lemma chat_turn_is_in_history_witness :
  ∃ h doc,
    fst (get_chat_history "s1"
           (snd (post_chat Scenario.env_ok (ChatRequest.make "again" "s1")
                   Scenario.with_history)))
    = Returns h
    ∧ ChatHistory.session_id h = "s1"
    ∧ doc ∈ ChatHistory.chats h
    ∧ ChatMessage.message doc = "again"
    ∧ ChatMessage.response doc = "Re: again"
    ∧ ChatHistory.chats h
      ≡ₚ find ChatMessage.session_id "s1"
           (docs (chat_messages Scenario.with_history)) ++ [doc]
    ∧ length (ChatHistory.chats h) = 4%nat
    ∧ fst (get_chat_history_route "s1"
             (snd (post_chat Scenario.env_ok (ChatRequest.make "again" "s1")
                     Scenario.with_history)))
      = HttpError 500 "Internal Server Error".
Proof.
  apply (chat_turn_is_in_history Scenario.env_ok (ChatRequest.make "again" "s1")
           Scenario.with_history (ChatResponse.make "Re: again" "s1")).
  - reflexivity.
  - simpl. lia.
Defined.

(** X8. The chat history keeps the oldest hundred: once a session holds 100
    records or more, a further chat turn whose timestamp is not before
    theirs is persisted but the session's chat history reads as it did
    before the turn, at the route and in what the handler returns. *)
Theorem chat_history_hides_turns_past_the_cap env (request : ChatRequest.t)
    (w : World) (body : ChatResponse.t) :
  let session_id := ChatRequest.session_id request in
  let before := find ChatMessage.session_id session_id (docs (chat_messages w)) in
  fst (post_chat env request w) = Http200 body →
  (100 ≤ length before)%nat →
  Forall (λ x, String.leb (ChatMessage.timestamp x) (utcnow env (S (draws w)))
               = true) before →
  fst (get_chat_history_route session_id (snd (post_chat env request w)))
  = fst (get_chat_history_route session_id w)
  ∧ length (docs (chat_messages (snd (post_chat env request w))))
    = S (length (docs (chat_messages w)))
  ∧ fst (get_chat_history session_id (snd (post_chat env request w)))
    = fst (get_chat_history session_id w).
Proof.
  intros session_id before Hok Hlen Hold.
  destruct (chat_turn_store env request w)
    as (_ & [([s [d Herr]] & _) | (r & Hresp & Hf & Hstore)]).
  { rewrite Herr in Hok. discriminate Hok. }
  assert (Hsame : fst (get_chat_history session_id (snd (post_chat env request w)))
                  = fst (get_chat_history session_id w)).
  { rewrite !chat_history_value, Hstore, Hf. simpl fault. simpl docs.
    rewrite find_snoc_same by done. fold session_id before.
    rewrite sort_snoc_last.
    - by rewrite take_app_le by (by rewrite sort_length).
    - intros x Hx. by apply (proj1 (Forall_forall _ _) Hold). }
  split; [by apply chat_route_same |]. split; [| exact Hsame].
  rewrite Hstore. simpl docs. rewrite length_app. simpl. lia.
Qed.

Lemma chat_history_hides_turns_past_the_cap_witness :
  fst (get_chat_history_route "s1"
         (snd (post_chat Crowded.env Crowded.request Scenario.crowded)))
  = fst (get_chat_history_route "s1" Scenario.crowded)
  ∧ length (docs (chat_messages
                    (snd (post_chat Crowded.env Crowded.request Scenario.crowded))))
    = S (length (docs (chat_messages Scenario.crowded)))
  ∧ fst (get_chat_history "s1"
           (snd (post_chat Crowded.env Crowded.request Scenario.crowded)))
    = fst (get_chat_history "s1" Scenario.crowded).
Proof.
  apply (chat_history_hides_turns_past_the_cap Crowded.env Crowded.request
           Scenario.crowded (ChatResponse.make "Re: one more" "s1")).
  - reflexivity.
  - vm_compute. lia.
  - apply (bool_decide_unpack _). vm_compute. reflexivity.
Defined.

(** X9. The newest analysis comes first: after an analysis turn answered
    with 200 whose timestamp is later than those of the session's earlier
    records, the analysis-history handler returns, for that session, the
    new record followed by the first 49 entries of what it returned before
    the turn. The route then answers 500: the documents returned carry the
    ObjectId of the store. *)
Theorem new_analysis_heads_history env (file : UploadFile.t)
    (session_id : option string) (w : World) (body : AnalysisResponse.t) :
  let sid := default "default" session_id in
  let before :=
    find CandlestickAnalysis.session_id sid (docs (candlestick_analyses w)) in
  fst (post_analyze_candlestick env file session_id w) = Http200 body →
  Forall (λ x, String.leb (utcnow env (S (draws w)))
                 (CandlestickAnalysis.timestamp x) = false) before →
  ∃ old doc,
    fst (get_analysis_history sid w)
    = Returns (AnalysisHistory.make old sid)
    ∧ fst (get_analysis_history sid
             (snd (post_analyze_candlestick env file session_id w)))
      = Returns (AnalysisHistory.make (doc :: take 49 old) sid)
    ∧ CandlestickAnalysis.analysis doc = AnalysisResponse.analysis body
    ∧ CandlestickAnalysis.filename doc = UploadFile.filename file
    ∧ CandlestickAnalysis.timestamp doc = utcnow env (S (draws w))
    ∧ fst (get_analysis_history_route sid
             (snd (post_analyze_candlestick env file session_id w)))
      = HttpError 500 "Internal Server Error".
Proof.
  intros sid before Hok Hnew.
  destruct (analysis_turn_store env file session_id w)
    as (_ & [([s [d Herr]] & _) | (text & Hresp & Hf & Hstore)]).
  { rewrite Herr in Hok. discriminate Hok. }
  rewrite Hresp in Hok. injection Hok as <-.
  assert (Hread :
    fst (get_analysis_history sid
           (snd (post_analyze_candlestick env file session_id w)))
    = Returns
        (AnalysisHistory.make
           (CandlestickAnalysis.make (uuid4 env (draws w)) sid
              (UploadFile.filename file) text (detect_patterns text) ∅
              (extract_recommendations text) (utcnow env (S (draws w)))
            :: take 49
                 (take 50
                    (sort CandlestickAnalysis.timestamp (-1) before))) sid)).
  { rewrite analysis_history_value, Hstore. simpl fault. simpl docs.
    rewrite find_snoc_same by done. fold sid before.
    rewrite sort_snoc_first.
    - by rewrite take_take.
    - intros x Hx. by apply (proj1 (Forall_forall _ _) Hnew). }
  eexists _, _. split.
  { rewrite analysis_history_value, Hf. fold before. reflexivity. }
  split; [exact Hread |]. split; [done |]. split; [done |]. split; [done |].
  by rewrite (analysis_route_answer _ _ _ Hread).
Qed.

Lemma new_analysis_heads_history_witness :
  ∃ old doc,
    fst (get_analysis_history "s1" Scenario.with_history)
    = Returns (AnalysisHistory.make old "s1")
    ∧ fst (get_analysis_history "s1"
             (snd (post_analyze_candlestick Crowded.env Scenario.png (Some "s1")
                     Scenario.with_history)))
      = Returns (AnalysisHistory.make (doc :: take 49 old) "s1")
    ∧ CandlestickAnalysis.analysis doc
      = "Re: " +:+ analysis_prompt
    ∧ CandlestickAnalysis.filename doc = "chart.png"
    ∧ CandlestickAnalysis.timestamp doc = "t3001"
    ∧ fst (get_analysis_history_route "s1"
             (snd (post_analyze_candlestick Crowded.env Scenario.png (Some "s1")
                     Scenario.with_history)))
      = HttpError 500 "Internal Server Error".
Proof.
  apply (new_analysis_heads_history Crowded.env Scenario.png (Some "s1")
           Scenario.with_history
           (AnalysisResponse.make ("Re: " +:+ analysis_prompt)
              (detect_patterns ("Re: " +:+ analysis_prompt))
              (extract_recommendations ("Re: " +:+ analysis_prompt))
              "s1" "chart.png")).
  - reflexivity.
  - apply (bool_decide_unpack _). vm_compute. reflexivity.
Defined.

(** What the handlers return for a session after a turn in another one. *)
Lemma handlers_after_other_turns env (w : World) (other : string) :
  (∀ request, ChatRequest.session_id request ≠ other →
      fst (get_chat_history other (snd (post_chat env request w)))
      = fst (get_chat_history other w))
  ∧ (∀ request,
      fst (get_analysis_history other (snd (post_chat env request w)))
      = fst (get_analysis_history other w))
  ∧ (∀ file session_id, default "default" session_id ≠ other →
      fst (get_analysis_history other
             (snd (post_analyze_candlestick env file session_id w)))
      = fst (get_analysis_history other w))
  ∧ (∀ file session_id,
      fst (get_chat_history other
             (snd (post_analyze_candlestick env file session_id w)))
      = fst (get_chat_history other w)).
Proof.
  repeat split_and.
  - intros request Hne.
    destruct (chat_turn_store env request w)
      as (_ & [(_ & Hsame) | (r & _ & Hf & Hstore)]);
      rewrite !chat_history_value; [by rewrite Hsame |].
    rewrite Hstore, Hf. simpl fault. simpl docs.
    by rewrite find_snoc_other.
  - intros request. destruct (chat_turn_store env request w) as (Hsame & _).
    rewrite !analysis_history_value. by rewrite Hsame.
  - intros file session_id Hne.
    destruct (analysis_turn_store env file session_id w)
      as (_ & [(_ & Hsame) | (text & _ & Hf & Hstore)]);
      rewrite !analysis_history_value; [by rewrite Hsame |].
    rewrite Hstore, Hf. simpl fault. simpl docs.
    by rewrite find_snoc_other.
  - intros file session_id.
    destruct (analysis_turn_store env file session_id w) as (Hsame & _).
    rewrite !chat_history_value. by rewrite Hsame.
Qed.

(** X10. Sessions are isolated: a chat turn changes no other session's chat
    history and no session's analysis history, and an analysis turn changes
    no other session's analysis history and no session's chat history,
    whatever the turn answers; this holds of the routes' answers and of
    what the handlers return. *)
Theorem turns_leave_other_sessions_alone env (w : World) (other : string) :
  (∀ request, ChatRequest.session_id request ≠ other →
      fst (get_chat_history_route other (snd (post_chat env request w)))
      = fst (get_chat_history_route other w))
  ∧ (∀ request,
      fst (get_analysis_history_route other (snd (post_chat env request w)))
      = fst (get_analysis_history_route other w))
  ∧ (∀ file session_id, default "default" session_id ≠ other →
      fst (get_analysis_history_route other
             (snd (post_analyze_candlestick env file session_id w)))
      = fst (get_analysis_history_route other w))
  ∧ (∀ file session_id,
      fst (get_chat_history_route other
             (snd (post_analyze_candlestick env file session_id w)))
      = fst (get_chat_history_route other w))
  ∧ (∀ request, ChatRequest.session_id request ≠ other →
      fst (get_chat_history other (snd (post_chat env request w)))
      = fst (get_chat_history other w))
  ∧ (∀ request,
      fst (get_analysis_history other (snd (post_chat env request w)))
      = fst (get_analysis_history other w))
  ∧ (∀ file session_id, default "default" session_id ≠ other →
      fst (get_analysis_history other
             (snd (post_analyze_candlestick env file session_id w)))
      = fst (get_analysis_history other w))
  ∧ (∀ file session_id,
      fst (get_chat_history other
             (snd (post_analyze_candlestick env file session_id w)))
      = fst (get_chat_history other w)).
Proof.
  destruct (handlers_after_other_turns env w other) as (H1 & H2 & H3 & H4).
  repeat split_and; try assumption.
  - intros request Hne. by apply chat_route_same, H1.
  - intros request. apply analysis_route_same, H2.
  - intros file session_id Hne. by apply analysis_route_same, H3.
  - intros file session_id. apply chat_route_same, H4.
Qed.

Lemma turns_leave_other_sessions_alone_witness :
  fst (get_chat_history_route "s2"
         (snd (post_chat Scenario.env_ok (ChatRequest.make "again" "s1")
                 Scenario.with_history)))
  = fst (get_chat_history_route "s2" Scenario.with_history).
Proof.
  destruct (turns_leave_other_sessions_alone Scenario.env_ok
              Scenario.with_history "s2") as (H & _).
  apply (H (ChatRequest.make "again" "s1")). discriminate.
Defined.

(** ** The signal extraction on related texts *)

Lemma lower_char_idemp (c : ascii) :
  Str.lower_char (Str.lower_char c) = Str.lower_char c.
Proof. by destruct c as [[] [] [] [] [] [] [] []]. Qed.

Lemma lower_idemp (s : string) : Str.lower (Str.lower s) = Str.lower s.
Proof.
  induction s as [|c s IH]; simpl; [done |].
  by rewrite lower_char_idemp, IH.
Qed.

Lemma lower_app (a b : string) :
  Str.lower (a +:+ b) = Str.lower a +:+ Str.lower b.
Proof. induction a as [|c a IH]; simpl; [done | by rewrite IH]. Qed.

Lemma string_app_assoc (a b c : string) : (a +:+ b) +:+ c = a +:+ b +:+ c.
Proof.
  induction a as [|x a IH]; [done |].
  change (String x ((a +:+ b) +:+ c) = String x (a +:+ b +:+ c)).
  by rewrite IH.
Qed.

Lemma is_substring_trans (a b c : string) :
  Str.is_substring a b -> Str.is_substring b c -> Str.is_substring a c.
Proof.
  intros (p1 & q1 & ->) (p2 & q2 & ->).
  exists (p2 +:+ p1), (q1 +:+ q2).
  by rewrite !string_app_assoc.
Qed.

Lemma is_substring_lower (a b : string) :
  Str.is_substring a b -> Str.is_substring (Str.lower a) (Str.lower b).
Proof.
  intros (p & q & ->). exists (Str.lower p), (Str.lower q).
  by rewrite !lower_app.
Qed.

Lemma contains_mono (needle t1 t2 : string) :
  Str.is_substring t1 t2 ->
  Str.contains needle (Str.lower t1) = true ->
  Str.contains needle (Str.lower t2) = true.
Proof.
  intros Hsub. rewrite !contains_spec. intros H.
  eapply is_substring_trans; [exact H |]. by apply is_substring_lower.
Qed.

(** X11. The extraction ignores case: two texts with the same lowercase
    form get the same patterns and the same recommendation tags, and so do
    a text and its lowercase form. *)
Theorem extraction_ignores_case (t1 t2 : string) :
  (Str.lower t1 = Str.lower t2 →
   detect_patterns t1 = detect_patterns t2
   ∧ extract_recommendations t1 = extract_recommendations t2)
  ∧ detect_patterns (Str.lower t1) = detect_patterns t1
  ∧ extract_recommendations (Str.lower t1) = extract_recommendations t1.
Proof.
  assert (H : ∀ a b, Str.lower a = Str.lower b →
                detect_patterns a = detect_patterns b
                ∧ extract_recommendations a = extract_recommendations b).
  { intros a b Hab. unfold detect_patterns, extract_recommendations.
    rewrite !detect_loop_filter. by rewrite Hab. }
  split; [apply H |]. apply H, lower_idemp.
Qed.

Lemma extraction_ignores_case_witness :
  detect_patterns "HAMMER then Doji: BUY" = detect_patterns "hammer THEN doji: buy"
  ∧ extract_recommendations "HAMMER then Doji: BUY"
    = extract_recommendations "hammer THEN doji: buy".
Proof.
  destruct (extraction_ignores_case "HAMMER then Doji: BUY"
              "hammer THEN doji: buy") as [H _].
  apply H. reflexivity.
Defined.

Lemma detected_sublist (keywords : list string) (t1 t2 : string) :
  Str.is_substring t1 t2 ->
  filter (λ p, Str.contains (Str.lower p) (Str.lower t1)) keywords
  `sublist_of`
  filter (λ p, Str.contains (Str.lower p) (Str.lower t2)) keywords.
Proof.
  intros Hsub. induction keywords as [|p ks IH]; [done |].
  rewrite !filter_cons.
  destruct (Str.contains (Str.lower p) (Str.lower t1)) eqn:H1.
  - rewrite (contains_mono _ _ _ Hsub H1). simpl. by apply sublist_skip.
  - simpl. destruct (Str.contains (Str.lower p) (Str.lower t2)); simpl;
      [by apply sublist_cons | done].
Qed.

(** X12. Text around a response never removes a signal: if one text occurs
    inside another, the patterns detected in it are a sublist of those
    detected in the other, its risk-management and profit-booking tags
    carry over, and so does a buy signal; a sell signal carries over as an
    action tag, which may have turned into a buy signal. *)
Theorem extraction_grows_with_text (t1 t2 : string) :
  Str.is_substring t1 t2 →
  let r1 := extract_recommendations t1 in
  let r2 := extract_recommendations t2 in
  detect_patterns t1 `sublist_of` detect_patterns t2
  ∧ (∀ v, r1 !! "risk_management" = Some v → r2 !! "risk_management" = Some v)
  ∧ (∀ v, r1 !! "profit_booking" = Some v → r2 !! "profit_booking" = Some v)
  ∧ (r1 !! "action" = Some "Potential buy signal" →
     r2 !! "action" = Some "Potential buy signal")
  ∧ (is_Some (r1 !! "action") → is_Some (r2 !! "action")).
Proof.
  intros Hsub r1 r2. split.
  - unfold detect_patterns. rewrite !detect_loop_filter. simpl.
    by apply fmap_sublist, detected_sublist.
  - subst r1 r2. unfold extract_recommendations.
    pose proof (contains_mono "stop loss" _ _ Hsub) as Hs.
    pose proof (contains_mono "profit" _ _ Hsub) as Hp.
    pose proof (contains_mono "buy" _ _ Hsub) as Hb.
    pose proof (contains_mono "sell" _ _ Hsub) as Hl.
    destruct (Str.contains "stop loss" (Str.lower t1));
      [rewrite (Hs eq_refl) | destruct (Str.contains "stop loss" (Str.lower t2))];
      (destruct (Str.contains "profit" (Str.lower t1));
       [rewrite (Hp eq_refl) | destruct (Str.contains "profit" (Str.lower t2))]);
      (destruct (Str.contains "buy" (Str.lower t1));
       [rewrite (Hb eq_refl) | destruct (Str.contains "buy" (Str.lower t2))]);
      (destruct (Str.contains "sell" (Str.lower t1));
       [try rewrite (Hl eq_refl) | destruct (Str.contains "sell" (Str.lower t2))]);
      clear; repeat split; intros; simplify_map_eq; eauto.
Qed.

Lemma extraction_grows_with_text_witness :
  detect_patterns "a doji; sell"
  `sublist_of` detect_patterns "First a hammer, then a doji; sell or buy"
  ∧ (extract_recommendations "a doji; sell" !! "action"
     = Some "Potential sell signal")
  ∧ (extract_recommendations "First a hammer, then a doji; sell or buy" !! "action"
     = Some "Potential buy signal").
Proof.
  pose proof (extraction_grows_with_text "a doji; sell"
                "First a hammer, then a doji; sell or buy") as H.
  cbv zeta in H.
  destruct H as (Hsub & _).
  - exists "First a hammer, then ", " or buy". reflexivity.
  - split; [exact Hsub |]. split; reflexivity.
Defined.

(** ** The conversion helpers *)

Lemma value_nested_ind (P : value -> Prop) :
  P VNone -> (forall b, P (VBool b)) -> (forall n, P (VInt n)) ->
  (forall s, P (VStr s)) -> (forall d, P (VDatetime d)) ->
  (forall hex, P (VObjectId hex)) ->
  (forall l, Forall P l -> P (VList l)) ->
  (forall items, Forall (fun kv => P (snd kv)) items -> P (VDict items)) ->
  forall v, P v.
Proof.
  intros HN HB HI HS HD HO HL HDi.
  fix IH 1.
  intros [| b | n | s | d | hex | l | items];
    [exact HN | apply HB | apply HI | apply HS | apply HD | apply HO | |].
  - apply HL. induction l as [|x l IHl]; constructor; [apply IH | exact IHl].
  - apply HDi. induction items as [|[k x] items IHl]; constructor;
      [apply IH | exact IHl].
Qed.

Lemma prepare_for_mongo_dict items :
  prepare_for_mongo (VDict items)
  = VDict
      (List.map
         (fun '(key, value) =>
            (key,
             match value with
             | VDatetime d => VStr (isoformat d)
             | VDict _ => prepare_for_mongo value
             | VList l =>
                 VList
                   (List.map
                      (fun item =>
                         match item with
                         | VDict _ => prepare_for_mongo item
                         | _ => item
                         end) l)
             | _ => value
             end)) items).
Proof. reflexivity. Qed.

Lemma prepare_for_mongo_idem_items (data : value) :
  prepare_for_mongo (prepare_for_mongo data) = prepare_for_mongo data
  ∧ match data with
    | VList l =>
        Forall (fun item =>
                  prepare_for_mongo (prepare_for_mongo item)
                  = prepare_for_mongo item) l
    | _ => True
    end.
Proof.
  induction data as [| | | | | | l IH | items IH] using value_nested_ind;
    try (split; [reflexivity | exact I]).
  - split; [reflexivity |]. eapply Forall_impl; [exact IH |]. by intros x [Hx _].
  - split; [| exact I].
    rewrite !prepare_for_mongo_dict. f_equal.
    rewrite List.map_map. apply List.map_ext_Forall.
    eapply Forall_impl; [exact IH |].
    intros [k v] [Hv Hl]. simpl in Hv, Hl. f_equal.
    destruct v as [| | | | | | l | sub]; try reflexivity.
    + f_equal. rewrite List.map_map. apply List.map_ext_Forall.
      eapply Forall_impl; [exact Hl |].
      intros item Hitem.
      destruct item as [| | | | | | l' | sub]; try reflexivity.
      rewrite prepare_for_mongo_dict. rewrite <- prepare_for_mongo_dict.
      exact Hitem.
    + rewrite prepare_for_mongo_dict. rewrite <- prepare_for_mongo_dict.
      exact Hv.
Qed.

(** X13. [prepare_for_mongo] is idempotent, keeps the keys of a dict in
    their order, returns a dict for a dict, and returns every value that
    is not a dict, lists included, as it is. *)
Theorem prepare_for_mongo_idempotent (data : value) :
  prepare_for_mongo (prepare_for_mongo data) = prepare_for_mongo data
  ∧ keys (prepare_for_mongo data) = keys data
  ∧ is_dict (prepare_for_mongo data) = is_dict data
  ∧ (is_dict data = false → prepare_for_mongo data = data).
Proof.
  split; [apply prepare_for_mongo_idem_items | split; [| split]].
  - destruct data; try reflexivity. simpl.
    rewrite List.map_map. apply List.map_ext. by intros [k v].
  - by destruct data.
  - by destruct data.
Qed.

Lemma prepare_for_mongo_idempotent_witness :
  prepare_for_mongo (VList [VDatetime (utc 2025 1 2 3 4 5 0)])
  = VList [VDatetime (utc 2025 1 2 3 4 5 0)].
Proof.
  apply (prepare_for_mongo_idempotent (VList [VDatetime (utc 2025 1 2 3 4 5 0)])).
  reflexivity.
Defined.

Lemma prepare_for_mongo_fields_items (data : value) :
  fields_datetime_free (prepare_for_mongo data) = true
  ∧ match data with
    | VList l =>
        Forall (fun item => fields_datetime_free (prepare_for_mongo item) = true) l
    | _ => True
    end.
Proof.
  induction data as [| | | | | | l IH | items IH] using value_nested_ind;
    try (split; [reflexivity | exact I]).
  - split; [reflexivity |]. eapply Forall_impl; [exact IH |]. by intros x [Hx _].
  - split; [| exact I].
    rewrite prepare_for_mongo_dict. cbn [fields_datetime_free].
    apply forallb_forall. intros [k' v'] Hin.
    apply in_map_iff in Hin as ([k v] & [= <- <-] & Hin).
    pose proof (proj1 (List.Forall_forall _ _) IH _ Hin) as [Hv Hl].
    simpl in Hv, Hl.
    destruct v as [| | | | | | l | sub]; try reflexivity.
    + apply forallb_forall. intros item' Hitem.
      apply in_map_iff in Hitem as (item & <- & Hitem).
      pose proof (proj1 (List.Forall_forall _ _) Hl _ Hitem) as Hi.
      destruct item as [| | | | | | l' | sub]; try reflexivity.
      exact Hi.
    + exact Hv.
Qed.

(** X14. After [prepare_for_mongo] no field is a datetime, in the dict
    itself, in its dict values and in the dicts that are items of its list
    values: every datetime field has become its ISO text. A list value
    without dict items is carried over as it is, datetimes included. *)
Theorem prepare_for_mongo_converts_fields (items : list (string * value)) :
  fields_datetime_free (prepare_for_mongo (VDict items)) = true
  ∧ (∀ key d, (key, VDatetime d) ∈ items →
       (key, VStr (isoformat d)) ∈ items_of (prepare_for_mongo (VDict items)))
  ∧ (∀ key l, (key, VList l) ∈ items →
       forallb (fun item => negb (is_dict item)) l = true →
       (key, VList l) ∈ items_of (prepare_for_mongo (VDict items))).
Proof.
  split; [apply prepare_for_mongo_fields_items |].
  rewrite prepare_for_mongo_dict. cbn [items_of]. split.
  - intros key d Hin. apply list_elem_of_In, in_map_iff.
    exists (key, VDatetime d). split; [reflexivity | by apply list_elem_of_In].
  - intros key l Hin Hl. apply list_elem_of_In, in_map_iff.
    exists (key, VList l). split; [| by apply list_elem_of_In].
    f_equal. f_equal. rewrite <- (List.map_id l) at 2.
    apply List.map_ext_in. intros item Hitem.
    pose proof (proj1 (forallb_forall _ _) Hl _ Hitem) as Hnd.
    by destruct item.
Qed.

Lemma prepare_for_mongo_converts_fields_witness :
  let doc :=
    [("at", VDatetime (utc 2025 1 2 3 4 5 0));
     ("seen", VList [VDatetime (utc 2025 1 2 3 4 5 6); VInt 1])] in
  ("at", VStr "2025-01-02T03:04:05+00:00")
    ∈ items_of (prepare_for_mongo (VDict doc))
  ∧ ("seen", VList [VDatetime (utc 2025 1 2 3 4 5 6); VInt 1])
    ∈ items_of (prepare_for_mongo (VDict doc)).
Proof.
  intros doc.
  destruct (prepare_for_mongo_converts_fields doc) as (_ & Hd & Hl).
  split.
  - apply (Hd "at" (utc 2025 1 2 3 4 5 0)). subst doc. set_solver.
  - apply Hl; [subst doc; set_solver | reflexivity].
Defined.

Lemma map_VStr_fields (fields : list (string * string)) :
  prepare_for_mongo
    (VDict (List.map (fun kv => (fst kv, VStr (snd kv))) fields))
  = VDict (List.map (fun kv => (fst kv, VStr (snd kv))) fields).
Proof.
  rewrite prepare_for_mongo_dict. f_equal. rewrite List.map_map.
  apply List.map_ext. by intros [k v].
Qed.

Lemma datetime_free_strings (l : list string) :
  forallb datetime_free (List.map VStr l) = true.
Proof. induction l; simpl; auto. Qed.

Lemma datetime_free_fields (fields : list (string * string)) :
  forallb (fun kv => datetime_free (snd kv))
    (List.map (fun kv => (fst kv, VStr (snd kv))) fields) = true.
Proof. induction fields; simpl; auto. Qed.

(** X15. On the dicts the handlers store, [prepare_for_mongo] replaces the
    timestamp by its ISO text and leaves every other field as it is, so
    the stored document holds no datetime at all. *)
Theorem prepare_for_mongo_documents (id session_id : string) (timestamp : datetime) :
  (∀ message response,
     prepare_for_mongo (chat_message_dict id session_id message response timestamp)
     = VDict
         [("id", VStr id); ("session_id", VStr session_id);
          ("message", VStr message); ("response", VStr response);
          ("timestamp", VStr (isoformat timestamp))])
  ∧ (∀ filename analysis patterns indicators recommendations,
     prepare_for_mongo
       (candlestick_analysis_dict id session_id filename analysis patterns
          indicators recommendations timestamp)
     = VDict
         [("id", VStr id); ("session_id", VStr session_id);
          ("filename", VStr filename); ("analysis", VStr analysis);
          ("patterns_detected", VList (List.map VStr patterns));
          ("indicators",
           VDict (List.map (fun kv => (fst kv, VStr (snd kv))) indicators));
          ("recommendations",
           VDict (List.map (fun kv => (fst kv, VStr (snd kv))) recommendations));
          ("timestamp", VStr (isoformat timestamp))]
     ∧ datetime_free
         (prepare_for_mongo
            (candlestick_analysis_dict id session_id filename analysis patterns
               indicators recommendations timestamp)) = true).
Proof.
  split; [reflexivity |].
  intros filename analysis patterns indicators recommendations.
  assert (Heq : prepare_for_mongo
       (candlestick_analysis_dict id session_id filename analysis patterns
          indicators recommendations timestamp)
     = VDict
         [("id", VStr id); ("session_id", VStr session_id);
          ("filename", VStr filename); ("analysis", VStr analysis);
          ("patterns_detected", VList (List.map VStr patterns));
          ("indicators",
           VDict (List.map (fun kv => (fst kv, VStr (snd kv))) indicators));
          ("recommendations",
           VDict (List.map (fun kv => (fst kv, VStr (snd kv))) recommendations));
          ("timestamp", VStr (isoformat timestamp))]).
  { unfold candlestick_analysis_dict. rewrite prepare_for_mongo_dict.
    cbn [List.map]. rewrite !map_VStr_fields. repeat f_equal.
    rewrite List.map_map. by apply List.map_ext. }
  split; [exact Heq |]. rewrite Heq. cbn [datetime_free forallb snd].
  by rewrite datetime_free_strings, !datetime_free_fields.
Qed.

Section FromMongoFacts.
Variable str_of : value -> string.

Lemma prepare_from_mongo_dict items :
  prepare_from_mongo str_of (VDict items)
  = VDict
      (List.map
         (fun '(key, value) =>
            (key,
             if String.eqb key "_id" then VStr (str_of value)
             else
               match value with
               | VDict _ => prepare_from_mongo str_of value
               | VList _ => prepare_from_mongo str_of value
               | _ => value
               end)) items).
Proof. reflexivity. Qed.

Lemma prepare_from_mongo_list l :
  prepare_from_mongo str_of (VList l)
  = VList (List.map (prepare_from_mongo str_of) l).
Proof. reflexivity. Qed.

Lemma prepare_from_mongo_ids (data : value) :
  ids_are_strings (prepare_from_mongo str_of data) = true.
Proof.
  induction data as [| | | | | | l IH | items IH] using value_nested_ind;
    try reflexivity.
  - rewrite prepare_from_mongo_list. cbn [ids_are_strings].
    apply forallb_forall. intros x' Hin.
    apply in_map_iff in Hin as (x & <- & Hin).
    exact (proj1 (List.Forall_forall _ _) IH _ Hin).
  - rewrite prepare_from_mongo_dict. cbn [ids_are_strings].
    apply forallb_forall. intros [k' v'] Hin.
    apply in_map_iff in Hin as ([k v] & [= <- <-] & Hin).
    pose proof (proj1 (List.Forall_forall _ _) IH _ Hin) as Hv. simpl in Hv.
    cbn [fst snd]. destruct (String.eqb k "_id"); [reflexivity |].
    by destruct v.
Qed.

Lemma prepare_from_mongo_id_free (data : value) :
  id_free data = true -> prepare_from_mongo str_of data = data.
Proof.
  induction data as [| | | | | | l IH | items IH] using value_nested_ind;
    try reflexivity; intros Hfree.
  - rewrite prepare_from_mongo_list. f_equal.
    rewrite <- (List.map_id l) at 2. apply List.map_ext_in. intros x Hin.
    apply (proj1 (List.Forall_forall _ _) IH _ Hin).
    exact (proj1 (forallb_forall _ _) Hfree _ Hin).
  - rewrite prepare_from_mongo_dict. f_equal.
    rewrite <- (List.map_id items) at 2. apply List.map_ext_in.
    intros [k v] Hin.
    pose proof (proj1 (List.Forall_forall _ _) IH _ Hin) as Hv. simpl in Hv.
    pose proof (proj1 (forallb_forall _ _) Hfree _ Hin) as Hkv.
    cbn [fst snd] in Hkv. apply andb_true_iff in Hkv as [Hk Hf].
    apply negb_true_iff in Hk. rewrite Hk. f_equal.
    destruct v; try reflexivity; by apply Hv.
Qed.

Lemma prepare_from_mongo_idem (data : value) :
  (forall s, str_of (VStr s) = s) ->
  prepare_from_mongo str_of (prepare_from_mongo str_of data)
  = prepare_from_mongo str_of data.
Proof.
  intros Hstr.
  induction data as [| | | | | | l IH | items IH] using value_nested_ind;
    try reflexivity.
  - rewrite !prepare_from_mongo_list. f_equal. rewrite List.map_map.
    apply List.map_ext_in. intros x Hin.
    exact (proj1 (List.Forall_forall _ _) IH _ Hin).
  - rewrite !prepare_from_mongo_dict. f_equal. rewrite List.map_map.
    apply List.map_ext_in. intros [k v] Hin.
    pose proof (proj1 (List.Forall_forall _ _) IH _ Hin) as Hv. simpl in Hv.
    destruct (String.eqb k "_id"); [by rewrite Hstr |].
    f_equal. destruct v; try reflexivity.
    + rewrite prepare_from_mongo_list. rewrite <- prepare_from_mongo_list.
      exact Hv.
    + rewrite prepare_from_mongo_dict. rewrite <- prepare_from_mongo_dict.
      exact Hv.
Qed.
End FromMongoFacts.

(** X16. After [prepare_from_mongo] every value stored under "_id" is a
    string, in the dicts at any depth, through nested dicts and lists; the
    keys of a dict are kept in their order. *)
Theorem prepare_from_mongo_stringifies_ids (str_of : value -> string)
    (data : value) :
  ids_are_strings (prepare_from_mongo str_of data) = true
  ∧ keys (prepare_from_mongo str_of data) = keys data
  ∧ (∀ id rest,
       prepare_from_mongo str_of (VDict (("_id", id) :: rest))
       = VDict (("_id", VStr (str_of id))
                  :: items_of (prepare_from_mongo str_of (VDict rest)))).
Proof.
  split; [apply prepare_from_mongo_ids |]. split; [| reflexivity].
  destruct data; try reflexivity.
  - rewrite prepare_from_mongo_dict. cbn [keys].
    rewrite List.map_map. apply List.map_ext. by intros [k v].
Qed.

(** X17. [prepare_from_mongo] returns a value in which the key "_id" does
    not occur as it is, so on a stored document it changes the "_id" field
    only; and it is idempotent, since the [str()] of a string is the string
    itself. *)
Theorem prepare_from_mongo_touches_ids_only (str_of : value -> string)
    (data : value) :
  (id_free data = true → prepare_from_mongo str_of data = data)
  ∧ (∀ id, id_free data = true → is_dict data = true →
       prepare_from_mongo str_of (VDict (("_id", id) :: items_of data))
       = VDict (("_id", VStr (str_of id)) :: items_of data))
  ∧ ((∀ s, str_of (VStr s) = s) →
     prepare_from_mongo str_of (prepare_from_mongo str_of data)
     = prepare_from_mongo str_of data).
Proof.
  split; [apply prepare_from_mongo_id_free |].
  split; [| apply prepare_from_mongo_idem].
  intros id Hfree Hdict. destruct data; try discriminate Hdict.
  cbn [items_of].
  pose proof (prepare_from_mongo_id_free str_of _ Hfree) as Hsame.
  rewrite prepare_from_mongo_dict in Hsame. injection Hsame as Hsame.
  rewrite prepare_from_mongo_dict. cbn [List.map]. f_equal. f_equal.
  exact Hsame.
Qed.

Lemma prepare_from_mongo_touches_ids_only_witness :
  let stored :=
    prepare_for_mongo
      (chat_message_dict "id-0" "s1" "hi" "Re: hi" (utc 2025 1 2 3 4 5 0)) in
  prepare_from_mongo str_of_id (VDict (("_id", VObjectId "65a1") :: items_of stored))
  = VDict (("_id", VStr "65a1") :: items_of stored)
  ∧ prepare_from_mongo str_of_id
      (prepare_from_mongo str_of_id
         (VDict (("_id", VObjectId "65a1") :: items_of stored)))
    = prepare_from_mongo str_of_id
        (VDict (("_id", VObjectId "65a1") :: items_of stored)).
Proof.
  intros stored. split.
  - apply (prepare_from_mongo_touches_ids_only str_of_id stored); reflexivity.
  - apply (prepare_from_mongo_touches_ids_only str_of_id
             (VDict (("_id", VObjectId "65a1") :: items_of stored))).
    reflexivity.
Defined.

(** ** Configuration *)

Lemma split_nonempty sep s : split sep s ≠ [].
Proof.
  destruct s as [|c t]; simpl; [done |].
  destruct (Ascii.eqb c sep); [done |]. by destruct (split sep t).
Qed.

(** X18. The allowed origins are the pieces of CORS_ORIGINS between its
    commas, taken as they are: joining them with commas gives the setting
    back, no piece holds a comma, there is one piece more than there are
    commas (so never none, and the empty setting gives one empty origin),
    and an unset variable gives the single origin "*". *)
Theorem allow_origins_split (setting : string) :
  join "," (allow_origins (Some setting)) = setting
  ∧ Forall (λ piece, occurrences ","%char piece = 0%nat)
      (allow_origins (Some setting))
  ∧ length (allow_origins (Some setting)) = S (occurrences ","%char setting)
  ∧ allow_origins None = ["*"].
Proof.
  unfold allow_origins. cbn [default from_option id]. split; [| split; [| split]].
  - induction setting as [|c t IH]; [done |]. cbn [split].
    destruct (Ascii.eqb_spec c ","%char) as [->|Hne].
    + pose proof (split_nonempty ","%char t) as Hnil.
      destruct (split ","%char t) as [|p r] eqn:E; [done |].
      rewrite <- IH. reflexivity.
    + pose proof (split_nonempty ","%char t) as Hnil.
      destruct (split ","%char t) as [|p r]; [done |].
      rewrite <- IH. by destruct r.
  - induction setting as [|c t IH]; [by repeat constructor |]. cbn [split].
    destruct (Ascii.eqb_spec c ","%char) as [->|Hne].
    + by constructor.
    + destruct (split ","%char t) as [|p r].
      * constructor; [| done]. simpl.
        by rewrite (proj2 (Ascii.eqb_neq _ _) Hne).
      * apply Forall_cons in IH as [Hp Hr]. constructor; [| done]. simpl.
        by rewrite (proj2 (Ascii.eqb_neq _ _) Hne).
  - induction setting as [|c t IH]; [done |]. cbn [split occurrences].
    destruct (Ascii.eqb c ","%char).
    + simpl. by rewrite IH.
    + pose proof (split_nonempty ","%char t) as Hnil.
      destruct (split ","%char t) as [|p r]; [done |]. exact IH.
  - reflexivity.
Qed.

(** ** The image payload *)

Lemma list_ind3 {A} (P : list A -> Prop) :
  P [] -> (forall a, P [a]) -> (forall a b, P [a; b]) ->
  (forall a b c rest, P rest -> P (a :: b :: c :: rest)) ->
  forall l, P l.
Proof.
  intros H0 H1 H2 H3. fix IH 1.
  intros [|a [|b [|c rest]]]; [exact H0 | apply H1 | apply H2 |].
  apply H3, IH.
Qed.

Lemma below_64 (P : N -> bool) :
  forallb P (List.map N.of_nat (seq 0 64)) = true ->
  forall i, (i < 64)%N -> P i = true.
Proof.
  intros Hall i Hi. apply (proj1 (forallb_forall _ _) Hall).
  apply in_map_iff. exists (N.to_nat i). split; [apply N2Nat.id |].
  apply in_seq. lia.
Qed.

Lemma b64_char_in_alphabet (i : N) :
  (i < 64)%N -> In (b64_char i) (list_ascii_of_string b64_alphabet).
Proof.
  intros Hi.
  pose proof (below_64
    (fun i => existsb (Ascii.eqb (b64_char i)) (list_ascii_of_string b64_alphabet))
    eq_refl i Hi) as H.
  apply existsb_exists in H as (c & Hc & Heq).
  by apply Ascii.eqb_eq in Heq as ->.
Qed.

Lemma b64_char_inj (i j : N) :
  (i < 64)%N -> (j < 64)%N -> b64_char i = b64_char j -> i = j.
Proof.
  intros Hi Hj Heq.
  pose proof (below_64
    (fun i => forallb (fun j => implb (Ascii.eqb (b64_char i) (b64_char j)) (N.eqb i j))
                (List.map N.of_nat (seq 0 64)))
    eq_refl i Hi) as H.
  assert (Hin : In j (List.map N.of_nat (seq 0 64))).
  { apply in_map_iff. exists (N.to_nat j). split; [apply N2Nat.id |].
    apply in_seq. lia. }
  pose proof (proj1 (forallb_forall _ _) H _ Hin) as Hij. simpl in Hij.
  rewrite Heq, Ascii.eqb_refl in Hij. by apply N.eqb_eq.
Qed.

Lemma b64_char_not_pad (i : N) : (i < 64)%N -> b64_char i <> "="%char.
Proof.
  intros Hi Heq.
  pose proof (below_64 (fun i => negb (Ascii.eqb (b64_char i) "="%char))
                eq_refl i Hi) as H.
  simpl in H. rewrite Heq in H. discriminate H.
Qed.

Lemma to_N_inj (a b : byte) : Byte.to_N a = Byte.to_N b -> a = b.
Proof.
  intros H. pose proof (Byte.of_to_N a) as Ha. rewrite H, Byte.of_to_N in Ha.
  by injection Ha.
Qed.

(** The four six-bit groups of three bytes are below 64 and determine the
    bytes. *)
Lemma sextets (a b c : byte) :
  let x := Byte.to_N a in
  let y := Byte.to_N b in
  let z := Byte.to_N c in
  (x / 4 < 64 ∧ (x mod 4) * 16 + y / 16 < 64
   ∧ (y mod 16) * 4 + z / 64 < 64 ∧ z mod 64 < 64
   ∧ (x mod 4) * 16 < 64 ∧ (y mod 16) * 4 < 64)%N.
Proof.
  intros x y z.
  pose proof (Byte.to_N_bounded a). pose proof (Byte.to_N_bounded b).
  pose proof (Byte.to_N_bounded c). fold x y z in H, H0, H1.
  pose proof (N.div_mod x 4 ltac:(lia)). pose proof (N.div_mod y 16 ltac:(lia)).
  pose proof (N.div_mod z 64 ltac:(lia)).
  pose proof (N.mod_upper_bound x 4 ltac:(lia)).
  pose proof (N.mod_upper_bound y 16 ltac:(lia)).
  pose proof (N.mod_upper_bound z 64 ltac:(lia)).
  set (x1 := (x / 4)%N) in *. set (x2 := (x mod 4)%N) in *.
  set (y1 := (y / 16)%N) in *. set (y2 := (y mod 16)%N) in *.
  set (z1 := (z / 64)%N) in *. set (z2 := (z mod 64)%N) in *.
  clearbody x1 x2 y1 y2 z1 z2. lia.
Qed.

Lemma sextets_inj (x x' y y' z z' : N) :
  (x <= 255 -> x' <= 255 -> y <= 255 -> y' <= 255 -> z <= 255 -> z' <= 255 ->
   x / 4 = x' / 4 ->
   (x mod 4) * 16 + y / 16 = (x' mod 4) * 16 + y' / 16 ->
   (y mod 16) * 4 + z / 64 = (y' mod 16) * 4 + z' / 64 ->
   z mod 64 = z' mod 64 -> x = x' ∧ y = y' ∧ z = z')%N.
Proof.
  intros Hx Hx' Hy Hy' Hz Hz'.
  pose proof (N.div_mod x 4 ltac:(lia)). pose proof (N.div_mod x' 4 ltac:(lia)).
  pose proof (N.div_mod y 16 ltac:(lia)). pose proof (N.div_mod y' 16 ltac:(lia)).
  pose proof (N.div_mod z 64 ltac:(lia)). pose proof (N.div_mod z' 64 ltac:(lia)).
  pose proof (N.mod_upper_bound x 4 ltac:(lia)).
  pose proof (N.mod_upper_bound x' 4 ltac:(lia)).
  pose proof (N.mod_upper_bound y 16 ltac:(lia)).
  pose proof (N.mod_upper_bound y' 16 ltac:(lia)).
  pose proof (N.mod_upper_bound z 64 ltac:(lia)).
  pose proof (N.mod_upper_bound z' 64 ltac:(lia)).
  set (a1 := (x / 4)%N) in *. set (a2 := (x' / 4)%N) in *.
  set (a3 := (x mod 4)%N) in *. set (a4 := (x' mod 4)%N) in *.
  set (b1 := (y / 16)%N) in *. set (b2 := (y' / 16)%N) in *.
  set (b3 := (y mod 16)%N) in *. set (b4 := (y' mod 16)%N) in *.
  set (c1 := (z / 64)%N) in *. set (c2 := (z' / 64)%N) in *.
  set (c3 := (z mod 64)%N) in *. set (c4 := (z' mod 64)%N) in *.
  clearbody a1 a2 a3 a4 b1 b2 b3 b4 c1 c2 c3 c4.
  intros. lia.
Qed.

(** X19. The payload sent for an image has four characters for every
    three bytes of the file, rounded up, and consists of characters of the
    base64 alphabet and the padding character only. *)
Theorem b64encode_shape (bs : list byte) :
  String.length (b64encode bs) = (4 * ((length bs + 2) / 3))%nat
  ∧ Forall (λ c, In c (list_ascii_of_string b64_alphabet) ∨ c = "="%char)
      (list_ascii_of_string (b64encode bs)).
Proof.
  induction bs as [| a | a b | a b c rest [IHlen IHchars]] using list_ind3.
  - split; [reflexivity | constructor].
  - destruct (sextets a a a) as (H1 & _ & _ & _ & H2 & _).
    split; [reflexivity |]. cbn [b64encode list_ascii_of_string].
    repeat (apply List.Forall_cons;
            [first [left; by apply b64_char_in_alphabet | by right] |]).
    apply List.Forall_nil.
  - destruct (sextets a b b) as (H1 & H2 & _ & _ & _ & H3).
    split; [reflexivity |]. cbn [b64encode list_ascii_of_string].
    repeat (apply List.Forall_cons;
            [first [left; by apply b64_char_in_alphabet | by right] |]).
    apply List.Forall_nil.
  - destruct (sextets a b c) as (H1 & H2 & H3 & H4 & _).
    split.
    + cbn [b64encode String.length length]. rewrite IHlen.
      replace (S (S (S (length rest))) + 2)%nat
        with (length rest + 2 + 1 * 3)%nat by lia.
      rewrite Nat.div_add by lia. lia.
    + cbn [b64encode list_ascii_of_string].
      repeat (apply List.Forall_cons; [left; by apply b64_char_in_alphabet |]).
      exact IHchars.
Qed.

Lemma sextets_inj1 (x x' : N) :
  (x / 4 = x' / 4 -> (x mod 4) * 16 = (x' mod 4) * 16 -> x = x')%N.
Proof.
  pose proof (N.div_mod x 4 ltac:(lia)). pose proof (N.div_mod x' 4 ltac:(lia)).
  set (a1 := (x / 4)%N) in *. set (a2 := (x' / 4)%N) in *.
  set (a3 := (x mod 4)%N) in *. set (a4 := (x' mod 4)%N) in *.
  clearbody a1 a2 a3 a4. lia.
Qed.

Lemma sextets_inj2 (x x' y y' : N) :
  (y <= 255 -> y' <= 255 ->
   x / 4 = x' / 4 ->
   (x mod 4) * 16 + y / 16 = (x' mod 4) * 16 + y' / 16 ->
   (y mod 16) * 4 = (y' mod 16) * 4 -> x = x' ∧ y = y')%N.
Proof.
  intros Hy Hy'.
  pose proof (N.div_mod x 4 ltac:(lia)). pose proof (N.div_mod x' 4 ltac:(lia)).
  pose proof (N.div_mod y 16 ltac:(lia)). pose proof (N.div_mod y' 16 ltac:(lia)).
  pose proof (N.mod_upper_bound x 4 ltac:(lia)).
  pose proof (N.mod_upper_bound x' 4 ltac:(lia)).
  pose proof (N.mod_upper_bound y 16 ltac:(lia)).
  pose proof (N.mod_upper_bound y' 16 ltac:(lia)).
  set (a1 := (x / 4)%N) in *. set (a2 := (x' / 4)%N) in *.
  set (a3 := (x mod 4)%N) in *. set (a4 := (x' mod 4)%N) in *.
  set (b1 := (y / 16)%N) in *. set (b2 := (y' / 16)%N) in *.
  set (b3 := (y mod 16)%N) in *. set (b4 := (y' mod 16)%N) in *.
  clearbody a1 a2 a3 a4 b1 b2 b3 b4. intros. lia.
Qed.

Lemma string_cons_inj (c c' : ascii) (s s' : string) :
  String c s = String c' s' -> c = c' ∧ s = s'.
Proof. intros H. by injection H. Qed.

(** X20. The payload determines the file: two byte sequences with the same
    base64 text are the same sequence. *)
Theorem b64encode_injective (bs1 bs2 : list byte) :
  b64encode bs1 = b64encode bs2 → bs1 = bs2.
Proof.
  revert bs2.
  induction bs1 as [| a | a b | a b c rest IH] using list_ind3;
    intros [|a' [|b' [|c' rest']]]; cbn [b64encode]; intros H;
    try discriminate H; try reflexivity;
    repeat match type of H with
           | String _ _ = String _ _ =>
               apply string_cons_inj in H as [? H]
           end.
  all: try (exfalso;
            match goal with
            | Hp : "="%char = b64_char _ |- _ =>
                symmetry in Hp; revert Hp; apply b64_char_not_pad
            | Hp : b64_char _ = "="%char |- _ =>
                revert Hp; apply b64_char_not_pad
            end;
            first [apply (sextets a' b' b') | apply (sextets a' b' c')
                  | apply (sextets a b b) | apply (sextets a b c)]).
  - (* one byte each *)
    destruct (sextets a a a) as (? & _ & _ & _ & ? & _).
    destruct (sextets a' a' a') as (? & _ & _ & _ & ? & _).
    f_equal. apply to_N_inj, sextets_inj1; by apply b64_char_inj.
  - (* two bytes each *)
    destruct (sextets a b b) as (? & ? & _ & _ & _ & ?).
    destruct (sextets a' b' b') as (? & ? & _ & _ & _ & ?).
    destruct (sextets_inj2 (Byte.to_N a) (Byte.to_N a') (Byte.to_N b) (Byte.to_N b'))
      as [Ha Hb]; try (by apply b64_char_inj); try apply Byte.to_N_bounded.
    by rewrite (to_N_inj _ _ Ha), (to_N_inj _ _ Hb).
  - (* three bytes and more each *)
    destruct (sextets a b c) as (? & ? & ? & ? & _).
    destruct (sextets a' b' c') as (? & ? & ? & ? & _).
    destruct (sextets_inj (Byte.to_N a) (Byte.to_N a') (Byte.to_N b) (Byte.to_N b')
                (Byte.to_N c) (Byte.to_N c'))
      as (Ha & Hb & Hc); try (by apply b64_char_inj); try apply Byte.to_N_bounded.
    rewrite (to_N_inj _ _ Ha), (to_N_inj _ _ Hb), (to_N_inj _ _ Hc).
    do 3 f_equal. by apply IH.
Qed.

Lemma b64encode_injective_witness :
  [x4d; x61; x6e]%byte = [x4d; x61; x6e]%byte.
Proof.
  apply (b64encode_injective [x4d; x61; x6e]%byte [x4d; x61; x6e]%byte).
  reflexivity.
Defined.

(** ** The order of stored timestamps *)

Lemma compare_same_head (c : ascii) (s t : string) :
  String.compare (String c s) (String c t) = String.compare s t.
Proof.
  cbn [String.compare]. unfold Ascii.compare. by rewrite N.compare_refl.
Qed.

Lemma compare_same_prefix (p s t : string) :
  String.compare (p +:+ s) (p +:+ t) = String.compare s t.
Proof.
  induction p as [|c p IH]; [done |].
  change (String.compare (String c (p +:+ s)) (String c (p +:+ t))
          = String.compare s t).
  by rewrite compare_same_head.
Qed.

Lemma compare_refl (s : string) : String.compare s s = Eq.
Proof.
  induction s as [|c s IH]; [done |]. by rewrite compare_same_head.
Qed.

Lemma compare_digit (a b : N) :
  Ascii.compare (digit a) (digit b) = (a mod 10 ?= b mod 10)%N.
Proof.
  unfold Ascii.compare, digit.
  pose proof (N.mod_upper_bound a 10 ltac:(lia)).
  pose proof (N.mod_upper_bound b 10 ltac:(lia)).
  rewrite !N_ascii_embedding by lia.
  set (ra := (a mod 10)%N) in *. set (rb := (b mod 10)%N) in *.
  clearbody ra rb.
  destruct (N.compare_spec (48 + ra) (48 + rb)), (N.compare_spec ra rb);
    try reflexivity; lia.
Qed.

Lemma compare_base10 (a b : N) :
  (a ?= b)%N
  = match (a / 10 ?= b / 10)%N with
    | Eq => (a mod 10 ?= b mod 10)%N
    | c => c
    end.
Proof.
  pose proof (N.div_mod a 10 ltac:(lia)) as Ha.
  pose proof (N.div_mod b 10 ltac:(lia)) as Hb.
  pose proof (N.mod_upper_bound a 10 ltac:(lia)) as Hra.
  pose proof (N.mod_upper_bound b 10 ltac:(lia)) as Hrb.
  set (qa := (a / 10)%N) in *. set (qb := (b / 10)%N) in *.
  set (ra := (a mod 10)%N) in *. set (rb := (b mod 10)%N) in *.
  clearbody qa qb ra rb.
  destruct (N.compare_spec a b), (N.compare_spec qa qb), (N.compare_spec ra rb);
    try reflexivity; lia.
Qed.

(** Numbers printed in the same width compare as their texts do. *)
Lemma compare_padded (width : nat) (a b : N) (s t : string) :
  (a < 10 ^ N.of_nat width)%N -> (b < 10 ^ N.of_nat width)%N ->
  String.compare (zero_padded width a +:+ s) (zero_padded width b +:+ t)
  = match (a ?= b)%N with
    | Eq => String.compare s t
    | c => c
    end.
Proof.
  revert a b s t. induction width as [|w IH]; intros a b s t Ha Hb.
  - change (10 ^ N.of_nat 0)%N with 1%N in *.
    replace a with 0%N by lia. replace b with 0%N by lia. reflexivity.
  - rewrite Nat2N.inj_succ, N.pow_succ_r' in Ha, Hb.
    cbn [zero_padded]. rewrite !string_app_assoc.
    change (String (digit ?n) "" +:+ ?r) with (String (digit n) r).
    rewrite IH by (apply N.Div0.div_lt_upper_bound; lia).
    rewrite (compare_base10 a b).
    destruct (a / 10 ?= b / 10)%N; try reflexivity.
    cbn [String.compare]. by rewrite compare_digit.
Qed.

Lemma offset_before_fraction (offset : option Z) (s : string) :
  String.compare (format_offset offset) ("." +:+ s) = Lt.
Proof.
  destruct offset as [minutes|]; [| reflexivity].
  unfold format_offset. by destruct (minutes <? 0)%Z.
Qed.

(** The part of [isoformat] after the seconds. *)
Lemma compare_fraction (ua ub : N) (offset : option Z) :
  (ua < 1000000)%N -> (ub < 1000000)%N ->
  String.compare
    ((if (ua =? 0)%N then "" else "." +:+ zero_padded 6 ua) +:+ format_offset offset)
    ((if (ub =? 0)%N then "" else "." +:+ zero_padded 6 ub) +:+ format_offset offset)
  = (ua ?= ub)%N.
Proof.
  intros Ha Hb.
  destruct (N.eqb_spec ua 0) as [->|Hna], (N.eqb_spec ub 0) as [->|Hnb].
  - apply compare_refl.
  - rewrite string_app_assoc.
    change ("" +:+ format_offset offset) with (format_offset offset).
    rewrite offset_before_fraction. symmetry. apply N.compare_lt_iff. lia.
  - rewrite string_app_assoc.
    change ("" +:+ format_offset offset) with (format_offset offset).
    rewrite String.compare_antisym, offset_before_fraction. simpl.
    symmetry. apply N.compare_gt_iff. lia.
  - rewrite !string_app_assoc, compare_same_prefix.
    rewrite (compare_padded 6) by (change (10 ^ N.of_nat 6)%N with 1000000%N; lia).
    destruct (ua ?= ub)%N; try reflexivity. apply compare_refl.
Qed.

(** X21. Stored timestamps sort chronologically: for two datetimes with
    the same UTC offset, the ISO texts that [prepare_for_mongo] stores
    compare, character by character, exactly as the datetimes compare
    field by field; so the store's ascending order on the text is the
    order of the datetimes. *)
Theorem isoformat_order (a b : datetime) :
  fits a → fits b → utcoffset a = utcoffset b →
  String.compare (isoformat a) (isoformat b) = compare_fields a b
  ∧ (String.leb (isoformat a) (isoformat b) = true ↔ compare_fields a b ≠ Gt).
Proof.
  intros (Ya & Ma & Da & Ha & Mia & Sa & Ua) (Yb & Mb & Db & Hb & Mib & Sb & Ub) Hoff.
  assert (Hcmp : String.compare (isoformat a) (isoformat b) = compare_fields a b).
  { unfold isoformat, compare_fields. rewrite <- Hoff.
    rewrite (compare_padded 4) by (change (10 ^ N.of_nat 4)%N with 10000%N; lia).
    destruct (year a ?= year b)%N; try reflexivity.
    rewrite compare_same_prefix.
    rewrite (compare_padded 2) by (change (10 ^ N.of_nat 2)%N with 100%N; lia).
    destruct (month a ?= month b)%N; try reflexivity.
    rewrite compare_same_prefix.
    rewrite (compare_padded 2) by (change (10 ^ N.of_nat 2)%N with 100%N; lia).
    destruct (day a ?= day b)%N; try reflexivity.
    rewrite compare_same_prefix.
    rewrite (compare_padded 2) by (change (10 ^ N.of_nat 2)%N with 100%N; lia).
    destruct (hour a ?= hour b)%N; try reflexivity.
    rewrite compare_same_prefix.
    rewrite (compare_padded 2) by (change (10 ^ N.of_nat 2)%N with 100%N; lia).
    destruct (minute a ?= minute b)%N; try reflexivity.
    rewrite compare_same_prefix.
    rewrite (compare_padded 2) by (change (10 ^ N.of_nat 2)%N with 100%N; lia).
    destruct (second a ?= second b)%N; try reflexivity.
    by apply compare_fraction. }
  split; [exact Hcmp |].
  unfold String.leb. rewrite Hcmp. by destruct (compare_fields a b).
Qed.

Lemma isoformat_order_witness :
  String.compare (isoformat (utc 2025 1 2 3 4 5 0))
    (isoformat (utc 2025 1 2 3 4 5 250000))
  = compare_fields (utc 2025 1 2 3 4 5 0) (utc 2025 1 2 3 4 5 250000)
  ∧ (String.leb (isoformat (utc 2025 1 2 3 4 5 0))
       (isoformat (utc 2025 1 2 3 4 5 250000)) = true
     ↔ compare_fields (utc 2025 1 2 3 4 5 0) (utc 2025 1 2 3 4 5 250000) ≠ Gt).
Proof.
  apply (isoformat_order (utc 2025 1 2 3 4 5 0) (utc 2025 1 2 3 4 5 250000)).
  - unfold fits. simpl. lia.
  - unfold fits. simpl. lia.
  - reflexivity.
Defined.

